(** * OAuth demo: the authentication core

    A shallow embedding of the authentication service
    ([auth-service/app.py]) and of the request guards of the resource
    service ([resource-service/app.py]):

    - the in-memory store of OAuth states ([oauth_states]) with its
      expiry sweep, [store_oauth_state] and [verify_oauth_state];
    - the session tokens: [create_jwt_token], [verify_jwt_token] and the
      [/auth/refresh] handler;
    - the [/auth/callback] handler;
    - the decorators [login_required] and [admin_required].

    Clock readings ([time.time()], [datetime.utcnow()]) are whole seconds
    in [Z]; every function that reads the clock takes the reading as an
    argument, one argument per read.  The PyJWT library and the identity
    provider are outside the repository: the library is an interface
    ([JwtLib], and [JwsLib] for the segments and the signature of a
    token) with the part of its contract the proofs use ([JwtLaws],
    [JwsLaws]); the provider is a pair of oracles ([Provider]). *)

From Stdlib Require Import ZArith Lia Ascii String.
From stdpp Require Import gmap strings list fin_maps countable pretty.

Local Open Scope Z_scope.

(** ** Python values *)

(** The JSON values that travel through the services: claim values,
    configuration entries, fields of the identity assertion. *)
Inductive JVal : Type :=
  | JNull
  | JBool (b : bool)
  | JNum (n : Z)
  | JStr (s : string).

Global Instance JVal_eq_dec : EqDecision JVal.
Proof. solve_decision. Defined.

(** A Python [dict] with string keys. *)
Abbreviation PyDict := (gmap string JVal).

(** Exceptions the modelled code can meet.  The PyJWT ones form a
    hierarchy: [ExpiredSignatureError], [InvalidSignatureError],
    [DecodeError], [InvalidAudienceError], [ImmatureSignatureError],
    [InvalidAlgorithmError], [InvalidSubjectError] and [InvalidJTIError]
    derive from [InvalidTokenError]; [InvalidKeyError] does not. *)
Inductive PyExn : Type :=
  | KeyError (key : string)
  | IndexError
  | AttributeError
  | ValueError
  | ExpiredSignatureError
  | InvalidSignatureError
  | DecodeError
  | InvalidAudienceError
  | ImmatureSignatureError
  | InvalidAlgorithmError
  | InvalidSubjectError
  | InvalidJTIError
  | InvalidKeyError
  | OtherException.

Definition isinstance_ExpiredSignatureError (e : PyExn) : bool :=
  match e with ExpiredSignatureError => true | _ => false end.

Definition isinstance_InvalidTokenError (e : PyExn) : bool :=
  match e with
  | ExpiredSignatureError | InvalidSignatureError | DecodeError
  | InvalidAudienceError | ImmatureSignatureError
  | InvalidAlgorithmError | InvalidSubjectError | InvalidJTIError => true
  | _ => false
  end.

(** A computation that returns or raises. *)
Inductive PyResult (A : Type) : Type :=
  | Ok (a : A)
  | Raise (e : PyExn).
Arguments Ok {A} a.
Arguments Raise {A} e.

Global Instance PyResult_ret : MRet PyResult := λ A a, Ok a.

Global Instance PyResult_bind : MBind PyResult := λ A B k m,
  match m with
  | Ok a => k a
  | Raise e => Raise e
  end.

(** [d[key]]: raises [KeyError] when the key is missing. *)
Definition getitem (d : PyDict) (key : string) : PyResult JVal :=
  match d !! key with
  | Some v => Ok v
  | None => Raise (KeyError key)
  end.

(** [d.get(key)]: [None] when the key is missing. *)
Definition dict_get (d : PyDict) (key : string) : JVal :=
  default JNull (d !! key).

(** [d.get(key, dflt)]. *)
Definition dict_get_default (d : PyDict) (key : string) (dflt : JVal) : JVal :=
  default dflt (d !! key).

(** Truth value of a string ([if s:]) and of an optional string
    ([request.args.get(...)] gives [None] or a [str]). *)
Definition truthy_str (s : string) : bool :=
  match s with EmptyString => false | String _ _ => true end.

Definition truthy_opt_str (o : option string) : bool :=
  match o with Some s => truthy_str s | None => false end.

(** Truth value of an optional dict ([if not payload:]): [None] and the
    empty dict are false. *)
Definition truthy_opt_dict (o : option PyDict) : bool :=
  match o with
  | Some d => negb (bool_decide (d = ∅))
  | None => false
  end.

(** [s.startswith(prefix)]. *)
Definition startswith (prefix s : string) : bool := String.prefix prefix s.

(** [s.split(sep)] for a one-character separator: the pieces between
    the occurrences of [sep], empty pieces included. *)
Fixpoint split (sep : ascii) (s : string) : list string :=
  match s with
  | EmptyString => [EmptyString]
  | String c rest =>
      if decide (c = sep) then EmptyString :: split sep rest
      else match split sep rest with
           | piece :: pieces => String c piece :: pieces
           | [] => [String c EmptyString]
           end
  end.

(** [s.count(c)] for a one-character [c]. *)
Fixpoint count_char (c : ascii) (s : string) : nat :=
  match s with
  | EmptyString => 0%nat
  | String c' rest =>
      if decide (c' = c) then S (count_char c rest) else count_char c rest
  end.

(** ** The state store ([oauth_states]) *)

(** The value stored under a state: [{'timestamp': ..., 'used': ...}]. *)
Record StateData : Type := mkStateData {
  timestamp : Z;
  used : bool
}.

Global Instance StateData_eq_dec : EqDecision StateData.
Proof. solve_decision. Defined.

Module StateStore.

(** The list comprehension of [cleanup_expired_states]: the states whose
    record is older than 600 seconds at [current_time]. *)
Definition expired_states (current_time : Z) (oauth_states : gmap string StateData)
  : list string :=
  (filter (λ item : string * StateData, current_time - timestamp item.2 > 600)
          (map_to_list oauth_states)).*1.

(** [cleanup_expired_states()]: [del oauth_states[state]] for each
    expired state. *)
Definition cleanup_expired_states (current_time : Z)
    (oauth_states : gmap string StateData) : gmap string StateData :=
  foldl (λ states state, delete state states) oauth_states
        (expired_states current_time oauth_states).

(** [store_oauth_state(state)]: the sweep reads the clock
    ([sweep_time]), then the record is written with a second reading
    ([store_time]). *)
Definition store_oauth_state (sweep_time store_time : Z) (state : string)
    (oauth_states : gmap string StateData) : gmap string StateData :=
  let oauth_states := cleanup_expired_states sweep_time oauth_states in
  <[state := {| timestamp := store_time; used := false |}]> oauth_states.

(** [verify_oauth_state(state)]: the returned boolean and the store
    afterwards. *)
Definition verify_oauth_state (current_time : Z) (state : string)
    (oauth_states : gmap string StateData) : bool * gmap string StateData :=
  let oauth_states := cleanup_expired_states current_time oauth_states in
  match oauth_states !! state with
  | Some data =>
      if negb (used data)
      then (true, <[state := {| timestamp := timestamp data; used := true |}]> oauth_states)
      else (false, oauth_states)
  | None => (false, oauth_states)
  end.

(** Operations on the store, for runs of several calls. *)
Inductive Op : Type :=
  | Issue (sweep_time store_time : Z) (state : string)
  | Consume (current_time : Z) (state : string).

Definition step (oauth_states : gmap string StateData) (op : Op)
  : gmap string StateData :=
  match op with
  | Issue t1 t2 state => store_oauth_state t1 t2 state oauth_states
  | Consume t state => (verify_oauth_state t state oauth_states).2
  end.

Definition run (oauth_states : gmap string StateData) (ops : list Op)
  : gmap string StateData :=
  foldl step oauth_states ops.

(** An operation that does not issue [state]. *)
Definition no_issue_of (state : string) (op : Op) : Prop :=
  match op with
  | Issue _ _ state' => state' ≠ state
  | Consume _ _ => True
  end.

(** The clock reading an operation hands to the expiry sweep. *)
Definition sweep_time (op : Op) : Z :=
  match op with
  | Issue t1 _ _ => t1
  | Consume t _ => t
  end.

(** The clock does not run backwards between the two readings of
    [store_oauth_state]. *)
Definition clock_monotone (op : Op) : Prop :=
  match op with
  | Issue t1 t2 _ => t1 ≤ t2
  | Consume _ _ => True
  end.

(** How the record of a state can evolve while the state is not issued
    again: it disappears, or keeps its
    timestamp and stays used once used. *)
Definition evolves (o o' : option StateData) : Prop :=
  o' = None ∨ ∃ d d', o = Some d ∧ o' = Some d' ∧ timestamp d' = timestamp d
                      ∧ (used d = true → used d' = true).

End StateStore.

(** ** The PyJWT library *)

(** [jwt.encode(payload, key, algorithm='HS256')] and
    [jwt.decode(token, key, algorithms=['HS256'])].  Decoding reads the
    clock ([now]) to validate [exp].  An [exp] claim is carried as the
    number of seconds it denotes. *)
Class JwtLib : Type := {
  jwt_encode : PyDict → string → string;
  jwt_decode : string → string → Z → PyResult PyDict
}.

(** Claims the library validates on its own when a payload carries
    them, besides [exp]. *)
Definition no_other_registered_claims (payload : PyDict) : Prop :=
  payload !! "nbf" = None ∧ payload !! "iat" = None ∧ payload !! "aud" = None.

(** A claim the library wants to be a string when a payload carries it:
    it raises [InvalidSubjectError] for another [sub] and
    [InvalidJTIError] for another [jti]. *)
Definition string_claim (claim : string) (payload : PyDict) : Prop :=
  ∀ v, payload !! claim = Some v → ∃ s, v = JStr s.

(** The part of the library's contract on the round trip: a token
    encoded under a key decodes under the same key to the payload it
    was made from while its [exp] lies in the future and its [sub] and
    [jti], if any, are strings; it raises [ExpiredSignatureError] once
    [exp] lies in the past ([exp] is validated before [sub]); and a
    payload the library returns has no [sub] other than a string. *)
Class JwtLaws (lib : JwtLib) : Prop := {
  jwt_decode_encode_fresh :
    ∀ (payload : PyDict) (key : string) (now exp : Z),
      payload !! "exp" = Some (JNum exp) →
      no_other_registered_claims payload →
      string_claim "sub" payload →
      string_claim "jti" payload →
      now < exp →
      jwt_decode (jwt_encode payload key) key now = Ok payload;
  jwt_decode_encode_expired :
    ∀ (payload : PyDict) (key : string) (now exp : Z),
      payload !! "exp" = Some (JNum exp) →
      no_other_registered_claims payload →
      exp < now →
      jwt_decode (jwt_encode payload key) key now = Raise ExpiredSignatureError;
  jwt_decode_subject :
    ∀ (token key : string) (now : Z) (payload : PyDict),
      jwt_decode token key now = Ok payload →
      string_claim "sub" payload
}.

(** The compact serialisation the library writes and reads:
    [header.payload.signature], three segments without a dot joined by
    dots.  [jws_header] is the header segment the library writes for
    HS256, [jws_payload] the payload segment of a claim set,
    [hmac_sha256 key message] the HMAC-SHA256 of a message, and
    [base64url_decode] the library's decoder of a segment ([None] when
    it raises).  The signature segment decodes to the MAC under the key
    of the signing input, the text before the last dot.  [hmac_key] are
    the keys the library takes for HS256: it raises [InvalidKeyError]
    for a key in PEM or SSH format. *)
Class JwsLib : Type := {
  jws_header : string;
  jws_payload : PyDict → string;
  hmac_sha256 : string → string → string;
  base64url_decode : string → option string;
  hmac_key : string → Prop
}.

(** [header.payload], the text a signature is computed of. *)
Definition jws_signing_input {jws : JwsLib} (payload_segment : string) : string :=
  jws_header +:+ "." +:+ payload_segment.

(** The part of the library's contract on what it refuses: a string
    with fewer than two dots raises [DecodeError] ("Not enough
    segments"); a token under the library's header whose signature
    segment does not decode to the MAC of its signing input under the
    key raises an error of the [InvalidTokenError] family; and
    [jwt_encode] writes the three segments, the last one decoding to
    that MAC. *)
Class JwsLaws (lib : JwtLib) (jws : JwsLib) : Prop := {
  jwt_decode_not_enough_segments :
    ∀ (token key : string) (now : Z),
      (count_char "." token < 2)%nat →
      jwt_decode token key now = Raise DecodeError;
  jwt_decode_bad_signature :
    ∀ (payload_segment crypto_segment key : string) (now : Z),
      hmac_key key →
      count_char "." payload_segment = 0%nat →
      count_char "." crypto_segment = 0%nat →
      base64url_decode crypto_segment
        ≠ Some (hmac_sha256 key (jws_signing_input payload_segment)) →
      ∃ e, jwt_decode (jws_signing_input payload_segment +:+ "." +:+ crypto_segment)
             key now = Raise e
           ∧ isinstance_InvalidTokenError e = true;
  jwt_encode_segments :
    ∀ (payload : PyDict) (key : string),
      hmac_key key →
      count_char "." (jws_payload payload) = 0%nat
      ∧ ∃ crypto_segment,
          jwt_encode payload key
          = jws_signing_input (jws_payload payload) +:+ "." +:+ crypto_segment
          ∧ count_char "." crypto_segment = 0%nat
          ∧ base64url_decode crypto_segment
            = Some (hmac_sha256 key (jws_signing_input (jws_payload payload)))
}.

(** The tokens [verify_jwt_token] has to refuse at [now] under the
    secret: a string that does not have three segments; a token whose
    signature segment is not the MAC of the rest under the secret (a
    payload or a signature that was changed, a signature that is not
    base64url); a token issued under a key that signs differently; a
    token issued under the secret whose [exp] has passed. *)
Inductive invalid_token {lib : JwtLib} {jws : JwsLib} (JWT_SECRET : string) (now : Z)
    : string → Prop :=
  | malformed_token (token : string) :
      (count_char "." token < 2)%nat →
      invalid_token JWT_SECRET now token
  | tampered_token (payload_segment crypto_segment : string) :
      count_char "." payload_segment = 0%nat →
      count_char "." crypto_segment = 0%nat →
      base64url_decode crypto_segment
        ≠ Some (hmac_sha256 JWT_SECRET (jws_signing_input payload_segment)) →
      invalid_token JWT_SECRET now
        (jws_signing_input payload_segment +:+ "." +:+ crypto_segment)
  | wrong_key_token (payload : PyDict) (key : string) :
      hmac_key key →
      hmac_sha256 key (jws_signing_input (jws_payload payload))
        ≠ hmac_sha256 JWT_SECRET (jws_signing_input (jws_payload payload)) →
      invalid_token JWT_SECRET now (jwt_encode payload key)
  | expired_token (payload : PyDict) (exp : Z) :
      payload !! "exp" = Some (JNum exp) →
      no_other_registered_claims payload →
      exp < now →
      invalid_token JWT_SECRET now (jwt_encode payload JWT_SECRET).

(** ** JSON responses *)

(** [jsonify(body), status]. *)
Record JsonResponse : Type := mkJsonResponse {
  status_code : Z;
  json_body : PyDict
}.

Global Instance JsonResponse_eq_dec : EqDecision JsonResponse.
Proof. solve_decision. Defined.

Definition json_error (status : Z) (message : string) : JsonResponse :=
  {| status_code := status; json_body := {[ "error" := JStr message ]} |}.

(** ** The authentication service ([auth-service/app.py]) *)

(** The identity provider as seen by [/auth/callback]. *)

(** What [requests.post(TOKEN_URI, data=data)] does: it raises (no
    connection), or returns a response with a status code whose
    [.json()] is a dict or raises. *)
Inductive PostOutcome : Type :=
  | PostRaises
  | PostResponse (status : Z) (json : option PyDict).

(** What [id_token.verify_oauth2_token(...)] does: it returns the
    verified assertion, raises [ValueError], or raises something else. *)
Inductive IdTokenOutcome : Type :=
  | IdInfo (idinfo : PyDict)
  | IdValueError
  | IdOtherError.

Record Provider : Type := {
  token_endpoint : string → PostOutcome;
  verify_oauth2_token : JVal → IdTokenOutcome
}.

(** The calls a handler makes to the outside. *)
Inductive ExternalCall : Type :=
  | PostTokenEndpoint (code : string)
  | VerifyIdToken (id_token : JVal).

(** The query arguments of the callback request. *)
Record CallbackArgs : Type := {
  arg_state : option string;
  arg_code : option string
}.

(** A redirect response. *)
Inductive Redirect : Type :=
  | redirect (location : string).

Global Instance Redirect_eq_dec : EqDecision Redirect.
Proof. solve_decision. Defined.

(** What a run of [/auth/callback] leaves behind: the response, the
    state store, the session, and the external calls it made, in
    order. *)
Record CallbackResult : Type := {
  cb_response : Redirect;
  cb_oauth_states : gmap string StateData;
  cb_session : gmap string string;
  cb_calls : list ExternalCall
}.

Module AuthService.
Import StateStore.

Section Service.

Context {lib : JwtLib}.

(** Configuration ([config.json] and the environment). *)
Variable JWT_SECRET : string.
Variable USER_ROLES : PyDict.
Variable FRONTEND_URL : string.

(** [get_user_role(email)]: [USER_ROLES.get(email, 'user')]. *)
Definition get_user_role (email : JVal) : JVal :=
  match email with
  | JStr e => dict_get_default USER_ROLES e (JStr "user")
  | _ => JStr "user"
  end.

(** The [payload] dict of [create_jwt_token]; [utcnow] is the reading of
    [datetime.utcnow()], 28800 seconds are [timedelta(hours=8)]. *)
Definition create_jwt_payload (utcnow : Z) (user_info : PyDict) : PyResult PyDict :=
  sub ← getitem user_info "sub";
  email ← getitem user_info "email";
  name ← getitem user_info "name";
  role ← getitem user_info "role";
  let picture := dict_get_default user_info "picture" (JStr "") in
  mret (<["sub" := sub]> (<["email" := email]> (<["name" := name]>
        (<["role" := role]> (<["picture" := picture]>
        (<["exp" := JNum (utcnow + 28800)]> ∅)))))).

(** [create_jwt_token(user_info)]. *)
Definition create_jwt_token (utcnow : Z) (user_info : PyDict) : PyResult string :=
  payload ← create_jwt_payload utcnow user_info;
  mret (jwt_encode payload JWT_SECRET).

(** [verify_jwt_token(token)]: the two [except] clauses in order; an
    exception neither clause matches propagates. *)
Definition verify_jwt_token (now : Z) (token : string) : PyResult (option PyDict) :=
  match jwt_decode token JWT_SECRET now with
  | Ok payload => Ok (Some payload)
  | Raise e =>
      if isinstance_ExpiredSignatureError e then Ok None
      else if isinstance_InvalidTokenError e then Ok None
      else Raise e
  end.

(** The redirect targets of [/auth/callback]. *)
Definition login_error (reason : string) : Redirect :=
  redirect (FRONTEND_URL +:+ "/login?error=" +:+ reason).

Definition auth_success (jwt_token : string) : Redirect :=
  redirect (FRONTEND_URL +:+ "/auth/success?token=" +:+ jwt_token).

(** The state check at the head of [oauth_callback]: [state_valid] and
    the store afterwards. *)
Definition check_state (now : Z) (state session_state : option string)
    (oauth_states : gmap string StateData) : bool * gmap string StateData :=
  match state with
  | Some s =>
      if truthy_str s then
        let '(verified, oauth_states) := verify_oauth_state now s oauth_states in
        if verified then (true, oauth_states)
        else if decide (Some s = session_state) then (true, oauth_states)
        else (false, oauth_states)
      else (false, oauth_states)
  | None => (false, oauth_states)
  end.

(** The rest of [oauth_callback] once state and code are accepted: the
    exchange, the check of the identity assertion, the token.  The
    response, whether the session entry is cleared, and the calls
    made.  Every exception other than the [ValueError] of the assertion
    check ends in [internal_error]. *)
Definition exchange_code (idp : Provider) (utcnow : Z) (code : string)
    : Redirect * bool * list ExternalCall :=
  match token_endpoint idp code with
  | PostRaises => (login_error "internal_error", false, [PostTokenEndpoint code])
  | PostResponse status json =>
      if negb (bool_decide (status = 200))
      then (login_error "token_exchange_failed", false, [PostTokenEndpoint code])
      else
        match json with
        | None => (login_error "internal_error", false, [PostTokenEndpoint code])
        | Some tokens =>
            match tokens !! "id_token" with
            | None => (login_error "internal_error", false, [PostTokenEndpoint code])
            | Some idt =>
                let calls := [PostTokenEndpoint code; VerifyIdToken idt] in
                match verify_oauth2_token idp idt with
                | IdValueError => (login_error "invalid_token", false, calls)
                | IdOtherError => (login_error "internal_error", false, calls)
                | IdInfo idinfo =>
                    let user_email := dict_get idinfo "email" in
                    let user_role := get_user_role user_email in
                    match idinfo !! "sub" with
                    | None => (login_error "internal_error", false, calls)
                    | Some sub =>
                        let user_info : PyDict :=
                          <["sub" := sub]> (<["email" := user_email]>
                          (<["name" := dict_get idinfo "name"]>
                          (<["picture" := dict_get idinfo "picture"]>
                          (<["role" := user_role]> ∅)))) in
                        match create_jwt_token utcnow user_info with
                        | Ok jwt_token => (auth_success jwt_token, true, calls)
                        | Raise _ => (login_error "internal_error", false, calls)
                        end
                    end
                end
            end
        end
  end.

(** [oauth_callback()], the handler of [GET /auth/callback].  [now] is
    the clock reading of the sweep, [utcnow] the one of the token. *)
Definition oauth_callback (idp : Provider) (now utcnow : Z) (args : CallbackArgs)
    (session : gmap string string) (oauth_states : gmap string StateData)
    : CallbackResult :=
  let state := arg_state args in
  let session_state := session !! "oauth_state" in
  let '(state_valid, oauth_states) := check_state now state session_state oauth_states in
  if negb state_valid then
    {| cb_response := login_error "state_mismatch";
       cb_oauth_states := oauth_states; cb_session := session; cb_calls := [] |}
  else
    match arg_code args with
    | Some code =>
        if negb (truthy_str code) then
          {| cb_response := login_error "no_code";
             cb_oauth_states := oauth_states; cb_session := session; cb_calls := [] |}
        else
          let '(response, clear, calls) := exchange_code idp utcnow code in
          {| cb_response := response;
             cb_oauth_states := oauth_states;
             cb_session := if clear then delete "oauth_state" session else session;
             cb_calls := calls |}
    | None =>
        {| cb_response := login_error "no_code";
           cb_oauth_states := oauth_states; cb_session := session; cb_calls := [] |}
    end.

(** [initiate_login()], the handler of [GET /auth/login], for the
    [state] drawn from [os.urandom(32).hex()]: the store and the session
    afterwards. *)
Definition initiate_login (sweep_time store_time : Z) (state : string)
    (session : gmap string string) (oauth_states : gmap string StateData)
    : gmap string StateData * gmap string string :=
  (store_oauth_state sweep_time store_time state oauth_states,
   <["oauth_state" := state]> session).

(** [refresh_token()], the handler of [POST /auth/refresh].
    [get_json] is the parsed body, [None] when it is not a JSON object
    (then [data.get] raises); the body's [token] field is a string when
    present.  [now] is the clock reading of the verification, [utcnow]
    the one of the new token. *)
Definition refresh_token (now utcnow : Z) (get_json : option (gmap string string))
    : JsonResponse :=
  match get_json with
  | None => json_error 500 "Token refresh failed"
  | Some data =>
      let token := data !! "token" in
      if negb (truthy_opt_str token) then json_error 400 "Token required"
      else
        match verify_jwt_token now (default "" token) with
        | Raise _ => json_error 500 "Token refresh failed"
        | Ok payload =>
            if negb (truthy_opt_dict payload)
            then json_error 401 "Invalid or expired token"
            else
              let payload := default ∅ payload in
              let new_token :=
                sub ← getitem payload "sub";
                email ← getitem payload "email";
                name ← getitem payload "name";
                role ← getitem payload "role";
                let picture := dict_get_default payload "picture" (JStr "") in
                create_jwt_token utcnow
                  (<["sub" := sub]> (<["email" := email]> (<["name" := name]>
                   (<["role" := role]> (<["picture" := picture]> ∅))))) in
              match new_token with
              | Ok new_token =>
                  {| status_code := 200; json_body := {[ "token" := JStr new_token ]} |}
              | Raise _ => json_error 500 "Token refresh failed"
              end
        end
  end.

End Service.
End AuthService.

(** ** The resource service ([resource-service/app.py]) *)

(** What the guards read of a request: the [Authorization] header and
    the [user] attribute a guard may have set. *)
Record Request : Type := {
  authorization : option string;
  user : option PyDict
}.

Definition set_user (payload : PyDict) (req : Request) : Request :=
  {| authorization := authorization req; user := Some payload |}.

(** A view function: it answers, or raises. *)
Definition View : Type := Request → PyResult JsonResponse.

(** The role a route asks for: a route under [@login_required] alone,
    or under [@login_required] and [@admin_required]. *)
Inductive RequiredRole : Type :=
  | any_authenticated
  | admin.

Global Instance RequiredRole_eq_dec : EqDecision RequiredRole.
Proof. solve_decision. Defined.

Module ResourceService.

Section Service.

Context {lib : JwtLib}.

Variable JWT_SECRET : string.

(** [verify_jwt_token(token)], as in the authentication service. *)
Definition verify_jwt_token (now : Z) (token : string) : PyResult (option PyDict) :=
  match jwt_decode token JWT_SECRET now with
  | Ok payload => Ok (Some payload)
  | Raise e =>
      if isinstance_ExpiredSignatureError e then Ok None
      else if isinstance_InvalidTokenError e then Ok None
      else Raise e
  end.

(** [login_required(f)]. *)
Definition login_required (f : View) (now : Z) : View := λ request,
  match authorization request with
  | None => Ok (json_error 401 "Missing or invalid token")
  | Some auth_header =>
      if negb (truthy_str auth_header) || negb (startswith "Bearer " auth_header)
      then Ok (json_error 401 "Missing or invalid token")
      else
        token ← match split " " auth_header !! 1%nat with
                | Some token => Ok token
                | None => Raise IndexError
                end;
        payload ← verify_jwt_token now token;
        if negb (truthy_opt_dict payload)
        then Ok (json_error 401 "Invalid or expired token")
        else f (set_user (default ∅ payload) request)
  end.

(** [admin_required(f)]. *)
Definition admin_required (f : View) : View := λ request,
  match user request with
  | None => Ok (json_error 403 "Admin access required")
  | Some request_user =>
      if bool_decide (dict_get request_user "role" ≠ JStr "admin")
      then Ok (json_error 403 "Admin access required")
      else f request
  end.

(** A route as the service declares it: [@login_required] for every
    protected route, with [@admin_required] below it for the admin
    ones. *)
Definition protected (required_role : RequiredRole) (f : View) (now : Z) : View :=
  match required_role with
  | any_authenticated => login_required f now
  | admin => login_required (admin_required f) now
  end.

End Service.
End ResourceService.

(** The access policy in the specification's words:
    [authorize(claims, required_role)] is true iff
    [required_role == any-authenticated] or [claims.role == admin]. *)
Definition authorize (claims : PyDict) (required_role : RequiredRole) : bool :=
  bool_decide (required_role = any_authenticated)
  || bool_decide (claims !! "role" = Some (JStr "admin")).

(** ** A reference implementation of the library interface

    A small executable implementation of [JwtLib] and [JwsLib] that
    meets [JwtLaws] and [JwsLaws]; the development is instantiated with
    it on concrete inputs.  A token has three segments joined by dots:
    a fixed header, the bit string of the payload, and the bit string
    of a keyed checksum of the signing input, which stands for the
    MAC.  Decoding checks the segments, the signature and then the
    claims [exp], [sub] and [jti], in this order. *)

Global Instance JVal_countable : Countable JVal.
Proof.
  refine (inj_countable'
    (λ v, match v with
          | JNull => inl ()
          | JBool b => inr (inl b)
          | JNum n => inr (inr (inl n))
          | JStr s => inr (inr (inr s))
          end)
    (λ x, match x with
          | inl () => JNull
          | inr (inl b) => JBool b
          | inr (inr (inl n)) => JNum n
          | inr (inr (inr s)) => JStr s
          end) _).
  by intros [].
Defined.

Module RefJwt.

Fixpoint bits_of_pos (p : positive) : string :=
  match p with
  | xH => EmptyString
  | xO p => String "0" (bits_of_pos p)
  | xI p => String "1" (bits_of_pos p)
  end.

Fixpoint pos_of_bits (s : string) : option positive :=
  match s with
  | EmptyString => Some xH
  | String c s =>
      if decide (c = "0"%char) then xO <$> pos_of_bits s
      else if decide (c = "1"%char) then xI <$> pos_of_bits s
      else None
  end.

Definition header_segment : string := "jwt".

Definition payload_segment (payload : PyDict) : string :=
  bits_of_pos (encode payload).

(** A 32-bit checksum of a string, from the value [h]. *)
Fixpoint checksum (h : N) (s : string) : N :=
  match s with
  | EmptyString => h
  | String c rest => checksum ((h * 31 + N_of_ascii c) mod 4294967296)%N rest
  end.

Definition mac (key message : string) : string :=
  bits_of_pos (N.succ_pos (checksum 7 (key +:+ "/" +:+ message))).

(** The decoder of a segment takes bit strings only. *)
Definition segment_decode (segment : string) : option string :=
  pos_of_bits segment ≫= λ _, Some segment.

Definition encode_token (payload : PyDict) (key : string) : string :=
  let signing_input := header_segment +:+ "." +:+ payload_segment payload in
  signing_input +:+ "." +:+ mac key signing_input.

Definition validate_jti (payload : PyDict) : PyResult PyDict :=
  match payload !! "jti" with
  | Some (JStr _) | None => Ok payload
  | Some _ => Raise InvalidJTIError
  end.

Definition validate_sub (payload : PyDict) : PyResult PyDict :=
  match payload !! "sub" with
  | Some (JStr _) | None => validate_jti payload
  | Some _ => Raise InvalidSubjectError
  end.

Definition validate_claims (payload : PyDict) (now : Z) : PyResult PyDict :=
  match payload !! "exp" with
  | Some (JNum exp) =>
      if exp <=? now then Raise ExpiredSignatureError else validate_sub payload
  | Some _ => Raise DecodeError
  | None => validate_sub payload
  end.

Definition decode_token (token key : string) (now : Z) : PyResult PyDict :=
  match split "." token with
  | [header; payload; crypto] =>
      if negb (bool_decide (header = header_segment)) then Raise InvalidAlgorithmError
      else
        match segment_decode crypto with
        | None => Raise DecodeError
        | Some signature =>
            if negb (bool_decide (signature = mac key (header +:+ "." +:+ payload)))
            then Raise InvalidSignatureError
            else
              match pos_of_bits payload ≫= decode (A := PyDict) with
              | None => Raise DecodeError
              | Some payload => validate_claims payload now
              end
        end
  | _ => Raise DecodeError
  end.

Definition lib : JwtLib :=
  {| jwt_encode := encode_token; jwt_decode := decode_token |}.

Definition jws : JwsLib :=
  {| jws_header := header_segment;
     jws_payload := payload_segment;
     hmac_sha256 := mac;
     base64url_decode := segment_decode;
     hmac_key := λ _, True |}.

End RefJwt.

(** ** Predicates of the statements *)

(** The state check of [/auth/callback] accepts the request: the state
    parameter is a non-empty string that the store verifies or that
    equals the session's [oauth_state]. *)
Definition state_accepted (now : Z) (state session_state : option string)
    (oauth_states : gmap string StateData) : Prop :=
  ∃ s, state = Some s ∧ s ≠ ""
       ∧ ((StateStore.verify_oauth_state now s oauth_states).1 = true
          ∨ session_state = Some s).

(** The token window in the specification's words: a claim set with an
    [issued_at] and an [expires_at] eight hours after it ([iat] and
    [exp] are the names JWT gives them). *)
Definition carries_issued_at (payload : PyDict) : Prop :=
  ∃ iat, payload !! "iat" = Some (JNum iat)
         ∧ payload !! "exp" = Some (JNum (iat + 28800)).

(** ** Sample data

    Concrete configurations, identities, tokens and providers on which
    the statements below are instantiated. *)

Module Fixtures.

(** A user as [/auth/callback] assembles it. *)
Definition alice : PyDict :=
  <["sub" := JStr "1001"]> (<["email" := JStr "alice@example.com"]>
  (<["name" := JStr "Alice"]> (<["role" := JStr "user"]>
  (<["picture" := JStr "https://example.com/a.png"]> ∅)))).

Definition secret : string := "secret".
Definition frontend : string := "http://localhost:3000".
Definition roles : PyDict := {[ "admin@example.com" := JStr "admin" ]}.

Definition admin_info : PyDict :=
  <["sub" := JStr "1002"]> (<["email" := JStr "admin@example.com"]>
  (<["name" := JStr "Root"]> (<["role" := JStr "admin"]>
  (<["picture" := JStr ""]> ∅)))).

(** The claims and the token [create_jwt_token] makes of [admin_info]
    at second 1000, under the reference library. *)
Definition admin_claims : PyDict := <["exp" := JNum 29800]> admin_info.
Definition admin_token : string := RefJwt.encode_token admin_claims secret.

(** A token under the service's key whose payload is only an expiry. *)
Definition bare_token : string :=
  RefJwt.encode_token {[ "exp" := JNum 29800 ]} secret.

(** The admin's claims under the reference library's header with a
    signature that was made up. *)
Definition forged_signature_token : string :=
  jws_signing_input (jws := RefJwt.jws) (RefJwt.payload_segment admin_claims)
  +:+ "." +:+ "0101".

(** [alice]'s claims with the role changed to [admin], under the
    signature of the claims as they were issued. *)
Definition tampered_payload_token : string :=
  jws_signing_input (jws := RefJwt.jws)
    (RefJwt.payload_segment (<["role" := JStr "admin"]> (<["exp" := JNum 29800]> alice)))
  +:+ "." +:+ RefJwt.mac secret
                (jws_signing_input (jws := RefJwt.jws)
                   (RefJwt.payload_segment (<["exp" := JNum 29800]> alice))).

(** A provider whose token endpoint refuses every code. *)
Definition idp_refusing : Provider :=
  {| token_endpoint := λ _, PostResponse 400 None;
     verify_oauth2_token := λ _, IdValueError |}.

(** A provider that accepts every code and asserts one identity. *)
Definition idp_accepting : Provider :=
  {| token_endpoint := λ _, PostResponse 200 (Some {[ "id_token" := JStr "assertion" ]});
     verify_oauth2_token := λ _,
       IdInfo (<["sub" := JStr "1001"]> (<["email" := JStr "alice@example.com"]>
               (<["name" := JStr "Alice"]> ∅))) |}.

(** A view that answers 200 with an empty body. *)
Definition view_ok : View := λ _, Ok {| status_code := 200; json_body := ∅ |}.

Definition bearer (token : string) : Request :=
  {| authorization := Some ("Bearer " +:+ token); user := None |}.

End Fixtures.

(** ** Nested JSON

    Bodies that nest: a Python [dict] literal is the list of its items in
    the order they are written, a [list] is a list. *)
Local Unset Elimination Schemes.
Inductive Json : Type :=
  | JAtom (v : JVal)
  | JList (items : list Json)
  | JDict (fields : list (string * Json)).
Local Set Elimination Schemes.

(** [d.get(key)] on the items of a dict. *)
Fixpoint assoc_get {A} (key : string) (fields : list (string * A)) : option A :=
  match fields with
  | [] => None
  | (k, v) :: rest => if decide (k = key) then Some v else assoc_get key rest
  end.

(** [d[key] = v] on the items of a dict: the value is replaced in
    place when the key is there, the item is appended when it is not. *)
Fixpoint assoc_set {A} (key : string) (v : A) (fields : list (string * A))
  : list (string * A) :=
  match fields with
  | [] => [(key, v)]
  | (k, x) :: rest =>
      if decide (k = key) then (k, v) :: rest else (k, x) :: assoc_set key v rest
  end.

(** Truth value of a JSON value: [None], [False], [0], the empty
    string, list and dict are false. *)
Definition truthy_atom (v : JVal) : bool :=
  match v with
  | JNull => false
  | JBool b => b
  | JNum n => negb (n =? 0)
  | JStr s => truthy_str s
  end.

Definition truthy (j : Json) : bool :=
  match j with
  | JAtom v => truthy_atom v
  | JList items => match items with [] => false | _ :: _ => true end
  | JDict fields => match fields with [] => false | _ :: _ => true end
  end.

(** [jsonify(body), status]. *)
Record JsonReply : Type := mkJsonReply {
  reply_status : Z;
  reply_body : Json
}.

Definition error_reply (status : Z) (message : string) : JsonReply :=
  {| reply_status := status;
     reply_body := JDict [("error", JAtom (JStr message))] |}.

(** ** More of the authentication service *)

(** The body of [GET /auth/debug]. *)
Record DebugInfo : Type := {
  stored_states_count : nat;
  stored_states : list string;
  session_has_state : bool;
  session_state : string
}.

Module AuthEndpoints.

(** [debug_oauth()], the handler of [GET /auth/debug]: the body and the
    store afterwards.  The store is a finite map, which does not record
    the order in which the states were inserted: [stored_states] is the
    handler's list up to its order. *)
Definition debug_oauth (now : Z) (session : gmap string string)
    (oauth_states : gmap string StateData) : DebugInfo * gmap string StateData :=
  let oauth_states := StateStore.cleanup_expired_states now oauth_states in
  ({| stored_states_count := size oauth_states;
      stored_states := (map_to_list oauth_states).*1;
      session_has_state := bool_decide (is_Some (session !! "oauth_state"));
      session_state := default "None" (session !! "oauth_state") |},
   oauth_states).

(** [clear_oauth_state()], the handler of [POST /auth/clear]: the
    answer, the store and the session afterwards. *)
Definition clear_oauth_state (session : gmap string string)
    (oauth_states : gmap string StateData)
    : JsonReply * gmap string StateData * gmap string string :=
  ({| reply_status := 200;
      reply_body := JDict [("message", JAtom (JStr "OAuth states cleared"));
                           ("success", JAtom (JBool true))] |},
   ∅, ∅).

Section Endpoints.

Context {lib : JwtLib}.
Variable JWT_SECRET : string.

(** [verify_token()], the handler of [POST /auth/verify].  [get_json]
    is the parsed body, [None] when it is not a JSON object; the body's
    [token] field is a string when present. *)
Definition verify_token (now : Z) (get_json : option (gmap string string))
    : JsonReply :=
  match get_json with
  | None => error_reply 500 "Token verification failed"
  | Some data =>
      let token := data !! "token" in
      if negb (truthy_opt_str token) then error_reply 400 "Token required"
      else
        match AuthService.verify_jwt_token JWT_SECRET now (default "" token) with
        | Raise _ => error_reply 500 "Token verification failed"
        | Ok payload =>
            if negb (truthy_opt_dict payload)
            then error_reply 401 "Invalid or expired token"
            else
              let payload := default ∅ payload in
              let user :=
                sub ← getitem payload "sub";
                email ← getitem payload "email";
                name ← getitem payload "name";
                role ← getitem payload "role";
                let picture := dict_get_default payload "picture" (JStr "") in
                mret (JDict [("sub", JAtom sub); ("email", JAtom email);
                             ("name", JAtom name); ("role", JAtom role);
                             ("picture", JAtom picture)]) in
              match user with
              | Ok user =>
                  {| reply_status := 200;
                     reply_body := JDict [("valid", JAtom (JBool true));
                                          ("user", user)] |}
              | Raise _ => error_reply 500 "Token verification failed"
              end
        end
  end.

End Endpoints.
End AuthEndpoints.

(** ** The views of the resource service *)

Module ResourceViews.

(** The [RESOURCES] table. *)
Definition document (id : Z) (title content type created_at : string)
  : list (string * Json) :=
  [("id", JAtom (JNum id)); ("title", JAtom (JStr title));
   ("content", JAtom (JStr content)); ("type", JAtom (JStr type));
   ("created_at", JAtom (JStr created_at))].

Definition sensitive_document (id : Z) (title content type created_at : string)
  : list (string * Json) :=
  document id title content type created_at ++ [("sensitive", JAtom (JBool true))].

Definition user_documents : list (list (string * Json)) :=
  [document 1 "Personal Document 1" "This is a user-accessible document."
     "document" "2025-01-01T10:00:00Z";
   document 2 "User Report" "Monthly user activity report."
     "report" "2025-01-15T14:30:00Z";
   document 3 "Project Files" "Access to your project files and documents."
     "files" "2025-01-20T09:15:00Z"].

Definition admin_resources : list (list (string * Json)) :=
  [sensitive_document 101 "System Configuration"
     "Critical system settings and configurations." "config" "2025-01-01T09:00:00Z";
   sensitive_document 102 "User Management Dashboard"
     "Comprehensive user analytics and management tools." "dashboard"
     "2025-01-10T11:00:00Z";
   sensitive_document 103 "System Logs" "Access to system logs and audit trails."
     "logs" "2025-01-25T16:45:00Z"].

(** [format_api_response(data, message)], with the defaulted
    [status="success"]; [utcnow] is [datetime.utcnow().isoformat()]. *)
Definition format_api_response (utcnow : string) (data : Json) (message : string)
  : Json :=
  JDict [("status", JAtom (JStr "success")); ("message", JAtom (JStr message));
         ("data", data); ("timestamp", JAtom (JStr (utcnow +:+ "Z")))].

(** [request.user]: the attribute is there once [login_required] has
    set it. *)
Definition request_user (request : Request) : PyResult PyDict :=
  match user request with
  | Some claims => Ok claims
  | None => Raise AttributeError
  end.

(** [get_user_resources()], the view of [GET /resources/user], below
    its guard. *)
Definition get_user_resources (utcnow : string) (request : Request)
    : PyResult JsonReply :=
  let resources := user_documents in
  enriched_resources ← mapM (λ resource : list (string * Json),
      let enriched_resource := resource in
      let enriched_resource :=
        assoc_set "access_level" (JAtom (JStr "user")) enriched_resource in
      claims ← request_user request;
      email ← getitem claims "email";
      mret (JDict (assoc_set "accessible_by" (JAtom email) enriched_resource)))
    resources;
  mret {| reply_status := 200;
          reply_body := format_api_response utcnow (JList enriched_resources)
            ("Retrieved " +:+ pretty (length enriched_resources)
             +:+ " user resources") |}.

(** [get_admin_resources()], the view of [GET /resources/admin], below
    its guards. *)
Definition get_admin_resources (utcnow : string) (request : Request)
    : PyResult JsonReply :=
  let resources := admin_resources in
  enriched_resources ← mapM (λ resource : list (string * Json),
      let enriched_resource := resource in
      let enriched_resource :=
        assoc_set "access_level" (JAtom (JStr "admin")) enriched_resource in
      claims ← request_user request;
      email ← getitem claims "email";
      mret (JDict (assoc_set "accessible_by" (JAtom email) enriched_resource)))
    resources;
  mret {| reply_status := 200;
          reply_body := format_api_response utcnow (JList enriched_resources)
            ("Retrieved " +:+ pretty (length enriched_resources)
             +:+ " admin resources") |}.

(** [get_all_accessible_resources()], the view of [GET /resources/all],
    below its guard. *)
Definition get_all_accessible_resources (utcnow : string) (request : Request)
    : PyResult JsonReply :=
  claims ← request_user request;
  let user_role := dict_get_default claims "role" (JStr "user") in
  let accessible_resources := user_documents in
  let accessible_resources :=
    if bool_decide (user_role = JStr "admin")
    then accessible_resources ++ admin_resources
    else accessible_resources in
  enriched_resources ← mapM (λ resource : list (string * Json),
      let enriched_resource := resource in
      let access_level :=
        if truthy (default (JAtom JNull) (assoc_get "sensitive" resource))
        then "admin" else "user" in
      let enriched_resource :=
        assoc_set "access_level" (JAtom (JStr access_level)) enriched_resource in
      claims ← request_user request;
      email ← getitem claims "email";
      mret (JDict (assoc_set "accessible_by" (JAtom email) enriched_resource)))
    accessible_resources;
  mret {| reply_status := 200;
          reply_body := format_api_response utcnow (JList enriched_resources)
            ("Retrieved " +:+ pretty (length enriched_resources)
             +:+ " accessible resources") |}.

(** [get_user_profile()], the view of [GET /user/profile], below its
    guard.  [last_accessed] and [utcnow] are the two readings of
    [datetime.utcnow().isoformat()]. *)
Definition get_user_profile (last_accessed utcnow : string) (request : Request)
    : PyResult JsonReply :=
  claims ← request_user request;
  let user_role := dict_get_default claims "role" (JStr "user") in
  let is_admin := bool_decide (user_role = JStr "admin") in
  let total_user_resources := length user_documents in
  let total_admin_resources := if is_admin then length admin_resources else 0%nat in
  let stats :=
    JDict [("total_accessible_resources",
              JAtom (JNum (Z.of_nat (total_user_resources + total_admin_resources))));
           ("user_resources", JAtom (JNum (Z.of_nat total_user_resources)));
           ("admin_resources", JAtom (JNum (Z.of_nat total_admin_resources)));
           ("role", JAtom user_role);
           ("last_accessed", JAtom (JStr (last_accessed +:+ "Z")))] in
  sub ← getitem claims "sub";
  email ← getitem claims "email";
  name ← getitem claims "name";
  let profile_data :=
    JDict [("user_info",
              JDict [("sub", JAtom sub); ("email", JAtom email);
                     ("name", JAtom name);
                     ("picture", JAtom (dict_get_default claims "picture" (JStr "")));
                     ("role", JAtom user_role)]);
           ("stats", stats);
           ("permissions",
              JDict [("can_access_user_resources", JAtom (JBool true));
                     ("can_access_admin_resources", JAtom (JBool is_admin));
                     ("can_manage_users", JAtom (JBool is_admin))])] in
  mret {| reply_status := 200;
          reply_body := format_api_response utcnow profile_data
                          "Profile retrieved successfully" |}.

End ResourceViews.

(** ** The frontend ([frontend/app.py]) *)

(** What a call of [requests.get] or [requests.post] does: it raises, or
    returns a response with a status code whose [.json()] is a value or
    raises. *)
Inductive HttpOutcome : Type :=
  | HttpRaises
  | HttpResponse (status : Z) (json : option Json).

(** The two backends as the frontend reaches them: the endpoint, the
    JSON sent (for a POST) and the token of the [Authorization] header,
    if one is set. *)
Record Services : Type := {
  auth_get : string → option Json → HttpOutcome;
  auth_post : string → Json → option Json → HttpOutcome;
  resource_get : string → option Json → HttpOutcome
}.

(** What a route of the frontend answers. *)
Inductive Page : Type :=
  | redirect_to (endpoint : string) (error : option string)
  | render_template (template : string) (keyword : string) (value : Json)
  | jsonify (body : Json) (status : Z).

Module Frontend.

Definition None_ : Json := JAtom JNull.

(** [d.get(key)] on a value that came out of [.json()]: only a dict has
    the method. *)
Definition json_get (j : Json) (key : string) : PyResult Json :=
  match j with
  | JDict fields => Ok (default None_ (assoc_get key fields))
  | _ => Raise AttributeError
  end.

(** [d[key]] on a dict. *)
Definition json_getitem (j : Json) (key : string) : PyResult Json :=
  match j with
  | JDict fields =>
      match assoc_get key fields with
      | Some v => Ok v
      | None => Raise (KeyError key)
      end
  | _ => Raise OtherException
  end.

(** The body of a response as both [call_] methods return it:
    [response.json() if response.status_code < 400 else None], and
    [None] for every exception. *)
Definition response_json (response : option HttpOutcome) : Json :=
  match response with
  | Some (HttpResponse status json) =>
      if status <? 400
      then match json with Some body => body | None => None_ end
      else None_
  | Some HttpRaises => None_
  | None => None_
  end.

(** [APIClient.call_auth_service(endpoint, method, data, token)]; a
    method other than GET and POST leaves [response] unbound, which
    raises inside the [try]. *)
Definition call_auth_service (svc : Services) (endpoint method : string)
    (data token : Json) : Json :=
  let headers := if truthy token then Some token else None in
  let response :=
    if bool_decide (method = "GET") then Some (auth_get svc endpoint headers)
    else if bool_decide (method = "POST") then Some (auth_post svc endpoint data headers)
    else None in
  response_json response.

(** [APIClient.call_resource_service(endpoint, method, token)]. *)
Definition call_resource_service (svc : Services) (endpoint method : string)
    (token : Json) : Json :=
  let headers := if truthy token then Some token else None in
  let response :=
    if bool_decide (method = "GET") then Some (resource_get svc endpoint headers)
    else None in
  response_json response.

(** [result and result.get('valid')], as a truth value. *)
Definition result_valid (result : Json) : PyResult bool :=
  if truthy result then valid ← json_get result "valid"; Ok (truthy valid)
  else Ok false.

(** The token check the pages share:
    [call_auth_service('/auth/verify', 'POST', {'token': token})]. *)
Definition verify_with_auth_service (svc : Services) (token : Json) : Json :=
  call_auth_service svc "/auth/verify" "POST" (JDict [("token", token)]) None_.

(** [session.get(key)]. *)
Definition session_get (session : gmap string Json) (key : string) : Json :=
  default None_ (session !! key).

(** [index()], the route [/]. *)
Definition index (svc : Services) (session : gmap string Json) : PyResult Page :=
  let token := session_get session "token" in
  if truthy token then
    result_valid (verify_with_auth_service svc token) ≫= λ valid : bool,
    if valid then Ok (redirect_to "dashboard" None)
    else Ok (redirect_to "login" None)
  else Ok (redirect_to "login" None).

(** The messages of the login page. *)
Definition error_messages : list (string * string) :=
  [("state_mismatch", "Authentication failed due to security check. Please try again.");
   ("no_code", "Authentication was cancelled or failed.");
   ("token_exchange_failed", "Failed to complete authentication with Google.");
   ("invalid_token", "Authentication token is invalid.");
   ("internal_error", "An internal error occurred during authentication.")].

Definition error_message (error : option string) : string :=
  match error with
  | Some e => default "" (assoc_get e error_messages)
  | None => ""
  end.

(** [login()], the route [/login]; [error] is [request.args.get('error')]. *)
Definition login (error : option string) : Page :=
  render_template "login.html" "error" (JAtom (JStr (error_message error))).

(** [auth_success()], the route [/auth/success]; [token] is
    [request.args.get('token')].  The page and the session afterwards. *)
Definition auth_success (svc : Services) (token : option string)
    (session : gmap string Json) : PyResult (Page * gmap string Json) :=
  if negb (truthy_opt_str token)
  then Ok (redirect_to "login" (Some "no_token"), session)
  else
    let token := JAtom (JStr (default "" token)) in
    let result := verify_with_auth_service svc token in
    result_valid result ≫= λ valid : bool,
    if negb valid then Ok (redirect_to "login" (Some "invalid_token"), session)
    else
      let session := <["token" := token]> session in
      user ← json_getitem result "user";
      let session := <["user" := user]> session in
      Ok (redirect_to "dashboard" None, session).

(** [dashboard()], the route [/dashboard]. *)
Definition dashboard (svc : Services) (session : gmap string Json)
    : PyResult (Page * gmap string Json) :=
  let token := session_get session "token" in
  let user := session_get session "user" in
  if negb (truthy token) || negb (truthy user)
  then Ok (redirect_to "login" None, session)
  else
    result_valid (verify_with_auth_service svc token) ≫= λ valid : bool,
    if negb valid then Ok (redirect_to "login" (Some "session_expired"), ∅)
    else Ok (render_template "dashboard.html" "user" user, session).

Definition not_authenticated : Page :=
  jsonify (JDict [("error", JAtom (JStr "Not authenticated"))]) 401.

Definition service_unavailable : Json :=
  JDict [("error", JAtom (JStr "Service unavailable"))].

(** [get_user_resources()], the route [/api/user/resources]. *)
Definition get_user_resources (svc : Services) (session : gmap string Json) : Page :=
  let token := session_get session "token" in
  if negb (truthy token) then not_authenticated
  else
    let result := call_resource_service svc "/resources/user" "GET" token in
    if truthy result then jsonify result 200 else jsonify service_unavailable 503.

(** [get_admin_resources()], the route [/api/admin/resources]: the
    [return] statement is a pair whose first component is the
    conditional expression and whose second is [503]. *)
Definition get_admin_resources (svc : Services) (session : gmap string Json) : Page :=
  let token := session_get session "token" in
  if negb (truthy token) then not_authenticated
  else
    let result := call_resource_service svc "/resources/admin" "GET" token in
    jsonify (if truthy result then result else service_unavailable) 503.

(** [get_user_profile()], the route [/api/user/profile]. *)
Definition get_user_profile (svc : Services) (session : gmap string Json) : Page :=
  let token := session_get session "token" in
  if negb (truthy token) then not_authenticated
  else
    let result := call_resource_service svc "/user/profile" "GET" token in
    if truthy result then jsonify result 200 else jsonify service_unavailable 503.

(** [get_admin_stats()], the route [/api/admin/stats]. *)
Definition get_admin_stats (svc : Services) (session : gmap string Json) : Page :=
  let token := session_get session "token" in
  if negb (truthy token) then not_authenticated
  else
    let result := call_resource_service svc "/admin/stats" "GET" token in
    jsonify (if truthy result then result else service_unavailable) 503.

(** [get_admin_users()], the route [/api/admin/users]. *)
Definition get_admin_users (svc : Services) (session : gmap string Json) : Page :=
  let token := session_get session "token" in
  if negb (truthy token) then not_authenticated
  else
    let result := call_resource_service svc "/admin/users" "GET" token in
    jsonify (if truthy result then result else service_unavailable) 503.

(** [logout()], the route [/logout]. *)
Definition logout (session : gmap string Json) : Page * gmap string Json :=
  (redirect_to "login" None, ∅).

End Frontend.

(** ** Notions of the further statements *)

(** The state an operation of the store is about. *)
Definition op_state (op : StateStore.Op) : string :=
  match op with
  | StateStore.Issue _ _ state => state
  | StateStore.Consume _ state => state
  end.

(** The status code of a page that is a JSON answer. *)
Definition page_status (page : Page) : option Z :=
  match page with
  | jsonify _ status => Some status
  | _ => None
  end.

(** The five reasons [/auth/callback] redirects to the login page
    with. *)
Definition callback_reasons : list string :=
  ["state_mismatch"; "no_code"; "token_exchange_failed"; "invalid_token";
   "internal_error"].

(** The provider accepts the code: the token endpoint answers 200 with
    an [id_token], and the assertion verifies to [idinfo]. *)
Definition provider_accepts (idp : Provider) (code : string) (idt : JVal)
    (idinfo : PyDict) : Prop :=
  ∃ tokens, token_endpoint idp code = PostResponse 200 (Some tokens)
            ∧ tokens !! "id_token" = Some idt
            ∧ verify_oauth2_token idp idt = IdInfo idinfo.

Module CallbackCases.
Section Cases.

Context {lib : JwtLib}.
Variable JWT_SECRET : string.
Variable USER_ROLES : PyDict.
Variable FRONTEND_URL : string.
Local Abbreviation login_error := (AuthService.login_error FRONTEND_URL).
Local Abbreviation auth_success := (AuthService.auth_success FRONTEND_URL).
Local Abbreviation get_user_role := (AuthService.get_user_role USER_ROLES).

(** The token the callback issues for a verified assertion. *)
Definition issued_token (utcnow : Z) (idinfo : PyDict) (sub : JVal) : string :=
  jwt_encode
    (<["sub" := sub]> (<["email" := dict_get idinfo "email"]>
     (<["name" := dict_get idinfo "name"]>
     (<["role" := get_user_role (dict_get idinfo "email")]>
     (<["picture" := dict_get idinfo "picture"]>
     (<["exp" := JNum (utcnow + 28800)]> ∅))))))
    JWT_SECRET.

(** What the exchange answers, case by case. *)
Inductive ExchangeCase (idp : Provider) (utcnow : Z) (code : string)
  : Redirect * bool * list ExternalCall → Prop :=
  | exchange_post_raises :
      token_endpoint idp code = PostRaises →
      ExchangeCase idp utcnow code
        (login_error "internal_error", false, [PostTokenEndpoint code])
  | exchange_refused status json :
      token_endpoint idp code = PostResponse status json → status ≠ 200 →
      ExchangeCase idp utcnow code
        (login_error "token_exchange_failed", false, [PostTokenEndpoint code])
  | exchange_no_json :
      token_endpoint idp code = PostResponse 200 None →
      ExchangeCase idp utcnow code
        (login_error "internal_error", false, [PostTokenEndpoint code])
  | exchange_no_id_token tokens :
      token_endpoint idp code = PostResponse 200 (Some tokens) →
      tokens !! "id_token" = None →
      ExchangeCase idp utcnow code
        (login_error "internal_error", false, [PostTokenEndpoint code])
  | exchange_invalid_assertion tokens idt :
      token_endpoint idp code = PostResponse 200 (Some tokens) →
      tokens !! "id_token" = Some idt →
      verify_oauth2_token idp idt = IdValueError →
      ExchangeCase idp utcnow code
        (login_error "invalid_token", false,
         [PostTokenEndpoint code; VerifyIdToken idt])
  | exchange_verifier_raises tokens idt :
      token_endpoint idp code = PostResponse 200 (Some tokens) →
      tokens !! "id_token" = Some idt →
      verify_oauth2_token idp idt = IdOtherError →
      ExchangeCase idp utcnow code
        (login_error "internal_error", false,
         [PostTokenEndpoint code; VerifyIdToken idt])
  | exchange_no_sub idt idinfo :
      provider_accepts idp code idt idinfo → idinfo !! "sub" = None →
      ExchangeCase idp utcnow code
        (login_error "internal_error", false,
         [PostTokenEndpoint code; VerifyIdToken idt])
  | exchange_ok idt idinfo sub :
      provider_accepts idp code idt idinfo → idinfo !! "sub" = Some sub →
      ExchangeCase idp utcnow code
        (auth_success (issued_token utcnow idinfo sub), true,
         [PostTokenEndpoint code; VerifyIdToken idt]).

End Cases.
End CallbackCases.

(** The authentication service vouches for a token: its
    [/auth/verify] answers the frontend's request with a status below
    400 and a JSON object whose [valid] entry is true. *)
Definition vouched (svc : Services) (token : Json) : Prop :=
  ∃ status fields valid,
    auth_post svc "/auth/verify" (JDict [("token", token)]) None
    = HttpResponse status (Some (JDict fields))
    ∧ status < 400
    ∧ assoc_get "valid" fields = Some valid
    ∧ truthy valid = true.

(** The frontend's backends when its requests reach the modelled
    [/auth/verify] handler of the authentication service at time [now]:
    the posted JSON object is the handler's [get_json()], the
    handler's reply is the response.  Other endpoints answer 404. *)
Definition posted_body (data : Json) : option (gmap string string) :=
  match data with
  | JDict fields =>
      Some (list_to_map (omap (λ item : string * Json,
              match item.2 with
              | JAtom (JStr s) => Some (item.1, s)
              | _ => None
              end) fields))
  | _ => None
  end.

Definition wired_services {lib : JwtLib} (JWT_SECRET : string) (now : Z) : Services :=
  {| auth_get := λ _ _, HttpResponse 404 None;
     auth_post := λ endpoint data _,
       if bool_decide (endpoint = "/auth/verify") then
         let reply := AuthEndpoints.verify_token JWT_SECRET now (posted_body data) in
         HttpResponse (reply_status reply) (Some (reply_body reply))
       else HttpResponse 404 None;
     resource_get := λ _ _, HttpResponse 404 None |}.

(** ** Further sample data *)

Module Samples.
Import Fixtures.

(** The assertion [idp_accepting] returns. *)
Definition alice_idinfo : PyDict :=
  <["sub" := JStr "1001"]> (<["email" := JStr "alice@example.com"]>
  (<["name" := JStr "Alice"]> ∅)).

(** A request as [login_required] hands it to a view. *)
Definition request_of (claims : PyDict) : Request :=
  {| authorization := None; user := Some claims |}.

Definition api_body : Json := JDict [("status", JAtom (JStr "success"))].

Definition vouching : Json :=
  JDict [("valid", JAtom (JBool true));
         ("user", JDict [("email", JAtom (JStr "alice@example.com"))])].

(** Backends that answer every request with 200. *)
Definition backends_up : Services :=
  {| auth_get := λ _ _, HttpResponse 200 (Some api_body);
     auth_post := λ _ _ _, HttpResponse 200 (Some vouching);
     resource_get := λ _ _, HttpResponse 200 (Some api_body) |}.

(** A session after a login. *)
Definition browser_session (token : string) : gmap string Json :=
  <["token" := JAtom (JStr token)]>
    (<["user" := JDict [("email", JAtom (JStr "alice@example.com"))]]> ∅).

End Samples.

(** * Properties *)

Import StateStore.

(** ** The state store *)

Section StateStoreFacts.
Implicit Types (m : gmap string StateData) (s k : string) (t : Z) (d : StateData).

Lemma lookup_foldl_delete m (l : list string) k :
  foldl (λ states state, delete state states) m l !! k
  = if decide (k ∈ l) then None else m !! k.
Proof.
  revert m. induction l as [|j l IH]; intros m; cbn [foldl].
  - destruct (decide (k ∈ [])) as [Hin|]; [by inversion Hin | done].
  - rewrite IH. destruct (decide (k = j)) as [->|Hne].
    + rewrite lookup_delete_eq. rewrite (decide_True _ _ (list_elem_of_here j l)).
      by destruct (decide (j ∈ l)).
    + rewrite lookup_delete_ne by done.
      destruct (decide (k ∈ l)) as [Hl|Hl].
      * by rewrite decide_True by (by right).
      * rewrite decide_False; [done|].
        intros Hin. apply elem_of_cons in Hin as [?|?]; done.
Qed.

Lemma elem_of_expired_states t m k :
  k ∈ expired_states t m ↔ ∃ d, m !! k = Some d ∧ t - timestamp d > 600.
Proof.
  unfold expired_states. rewrite list_elem_of_fmap. split.
  - intros [[k' d] [-> Hin]]. apply list_elem_of_filter in Hin as [Hexp Hin].
    apply elem_of_map_to_list in Hin. by exists d.
  - intros (d & Hk & Hexp). exists (k, d). split; [done|].
    apply list_elem_of_filter. split; [done|]. by apply elem_of_map_to_list.
Qed.

Lemma cleanup_lookup_Some t m k d :
  cleanup_expired_states t m !! k = Some d ↔ m !! k = Some d ∧ t - timestamp d ≤ 600.
Proof.
  unfold cleanup_expired_states. rewrite lookup_foldl_delete.
  case_decide as Hin.
  - apply elem_of_expired_states in Hin as (d' & Hk & Hexp).
    split; [done|]. intros [Hk' Hle]. simplify_eq. lia.
  - split.
    + intros Hk. split; [done|].
      destruct (decide (t - timestamp d ≤ 600)) as [|Hgt]; [done|].
      exfalso. apply Hin, elem_of_expired_states. exists d. split; [done|lia].
    + by intros [Hk _].
Qed.

Lemma cleanup_lookup_None t m k :
  cleanup_expired_states t m !! k = None
  ↔ m !! k = None ∨ ∃ d, m !! k = Some d ∧ t - timestamp d > 600.
Proof.
  destruct (cleanup_expired_states t m !! k) as [d|] eqn:Hc.
  - apply cleanup_lookup_Some in Hc as [Hk Hle]. split; [done|].
    intros [Hn|(d' & Hk' & Hgt)]; simplify_eq. lia.
  - split; [|done]. intros _.
    destruct (m !! k) as [d|] eqn:Hk; [|by left]. right. exists d. split; [done|].
    destruct (decide (t - timestamp d > 600)) as [|Hle]; [done|].
    assert (cleanup_expired_states t m !! k = Some d) as Hs
      by (apply cleanup_lookup_Some; split; [done|lia]).
    congruence.
Qed.

(** [verify_oauth_state] returns true exactly for a record that is
    present, not used and not expired. *)
Lemma verify_oauth_state_true t s m :
  (verify_oauth_state t s m).1 = true
  ↔ ∃ d, m !! s = Some d ∧ used d = false ∧ t - timestamp d ≤ 600.
Proof.
  unfold verify_oauth_state; simpl.
  destruct (cleanup_expired_states t m !! s) as [d|] eqn:Hc.
  - apply cleanup_lookup_Some in Hc as [Hk Hle].
    destruct (used d) eqn:Hu; simpl.
    + split; [done|]. intros (d' & Hk' & Hu' & _). simplify_eq. congruence.
    + split; [|done]. intros _. by exists d.
  - split; [done|]. intros (d & Hk & Hu & Hle).
    assert (cleanup_expired_states t m !! s = Some d) as Hs
      by (by apply cleanup_lookup_Some).
    congruence.
Qed.

Lemma verify_oauth_state_store_true t s m d :
  m !! s = Some d → used d = false → t - timestamp d ≤ 600 →
  (verify_oauth_state t s m).2
  = <[s := {| timestamp := timestamp d; used := true |}]> (cleanup_expired_states t m).
Proof.
  intros Hk Hu Hle. unfold verify_oauth_state; simpl.
  assert (cleanup_expired_states t m !! s = Some d) as ->
    by (by apply cleanup_lookup_Some).
  by rewrite Hu.
Qed.

Lemma verify_oauth_state_store_false t s m :
  (verify_oauth_state t s m).1 = false →
  (verify_oauth_state t s m).2 = cleanup_expired_states t m.
Proof.
  unfold verify_oauth_state; simpl.
  destruct (cleanup_expired_states t m !! s) as [d|]; [|done].
  by destruct (used d).
Qed.

Lemma evolves_refl o : evolves o o.
Proof. destruct o as [d|]; [right; by exists d, d | by left]. Qed.

Lemma evolves_trans o1 o2 o3 : evolves o1 o2 → evolves o2 o3 → evolves o1 o3.
Proof.
  intros H12 [->|(d2 & d3 & -> & -> & Ht & Hu)]; [by left|].
  destruct H12 as [?|(d1 & d2' & -> & ? & Ht' & Hu')]; simplify_eq.
  right. exists d1, d3. repeat split; [congruence | auto].
Qed.

Lemma cleanup_evolves t m s : evolves (m !! s) (cleanup_expired_states t m !! s).
Proof.
  destruct (cleanup_expired_states t m !! s) as [d|] eqn:Hc; [|by left].
  apply cleanup_lookup_Some in Hc as [-> _]. apply evolves_refl.
Qed.

Lemma verify_oauth_state_evolves t s' m s :
  evolves (m !! s) ((verify_oauth_state t s' m).2 !! s).
Proof.
  eapply evolves_trans; [apply (cleanup_evolves t)|].
  unfold verify_oauth_state; simpl.
  destruct (cleanup_expired_states t m !! s') as [d|] eqn:Hc; [|apply evolves_refl].
  destruct (used d) eqn:Hu; simpl; [apply evolves_refl|].
  destruct (decide (s' = s)) as [->|Hne].
  - rewrite lookup_insert_eq, Hc. right. eexists _, _. by repeat split.
  - rewrite lookup_insert_ne by done. apply evolves_refl.
Qed.

Lemma step_evolves m op s :
  no_issue_of s op → evolves (m !! s) (step m op !! s).
Proof.
  destruct op as [t1 t2 s'|t s']; cbn [step no_issue_of]; intros Hop.
  - unfold store_oauth_state. rewrite lookup_insert_ne by done.
    apply cleanup_evolves.
  - apply verify_oauth_state_evolves.
Qed.

Lemma run_evolves ops m s :
  Forall (no_issue_of s) ops → evolves (m !! s) (run m ops !! s).
Proof.
  unfold run. revert m. induction ops as [|op ops IH]; intros m Hops; simpl.
  - apply evolves_refl.
  - inversion_clear Hops as [|? ? Hop Hops'].
    eapply evolves_trans; [by apply step_evolves | by apply IH].
Qed.

Lemma verify_oauth_state_false_of_evolved t s m o :
  evolves o (m !! s) → (∀ d, o = Some d → used d = true ∨ t - timestamp d > 600) →
  (verify_oauth_state t s m).1 = false.
Proof.
  intros Hev Ho. apply not_true_is_false. intros Ht.
  apply verify_oauth_state_true in Ht as (d' & Hk & Hu & Hle).
  destruct Hev as [?|(d & d'' & -> & ? & Hts & Hused)]; simplify_eq.
  destruct (Ho d eq_refl) as [Hu'|Hgt]; [|lia].
  apply Hused in Hu'. congruence.
Qed.


(** C2.  [verify_oauth_state] returns true exactly when the record of
    the state exists, is not used and is at most 600 seconds old; it
    returns false in every other case (not found, used, expired); on
    success the record is marked used; after a success every later call
    for the same state returns false, whatever store operations came
    between, unless the state was issued again; and a state issued more
    than 600 seconds before the call is refused. *)
Theorem verify_oauth_state_consumes_once t s m :
  ((verify_oauth_state t s m).1 = true
     ↔ ∃ d, m !! s = Some d ∧ used d = false ∧ t - timestamp d ≤ 600)
  ∧ ((verify_oauth_state t s m).1 = false
     ↔ m !! s = None
       ∨ ∃ d, m !! s = Some d ∧ (used d = true ∨ t - timestamp d > 600))
  ∧ (∀ d, m !! s = Some d → used d = false → t - timestamp d ≤ 600 →
       (verify_oauth_state t s m).2 !! s
       = Some {| timestamp := timestamp d; used := true |})
  ∧ ((verify_oauth_state t s m).1 = true →
       ∀ ops t', Forall (no_issue_of s) ops →
         (verify_oauth_state t' s (run (verify_oauth_state t s m).2 ops)).1 = false)
  ∧ (∀ m0 t1 t0 ops, t - t0 > 600 → Forall (no_issue_of s) ops →
       (verify_oauth_state t s (run (store_oauth_state t1 t0 s m0) ops)).1 = false).
Proof.
  split; [apply verify_oauth_state_true|].
  split.
  { rewrite <- not_true_iff_false, verify_oauth_state_true. split.
    - intros Hno. destruct (m !! s) as [d|] eqn:Hk; [right|by left].
      exists d. split; [done|].
      destruct (used d) eqn:Hu; [by left|right].
      destruct (decide (t - timestamp d > 600)) as [|Hle]; [done|].
      exfalso. apply Hno. exists d. repeat split; [done|lia].
    - intros [Hn|(d & Hk & Hbad)] (d' & Hk' & Hu & Hle); simplify_eq.
      destruct Hbad as [?|?]; [congruence|lia]. }
  split.
  { intros d Hk Hu Hle.
    rewrite (verify_oauth_state_store_true t s m d) by done.
    apply lookup_insert_eq. }
  split.
  - intros Ht ops t' Hops.
    apply verify_oauth_state_true in Ht as (d & Hk & Hu & Hle).
    eapply verify_oauth_state_false_of_evolved; [by apply run_evolves|].
    rewrite (verify_oauth_state_store_true t s m d), lookup_insert_eq by done.
    intros d' [= <-]. by left.
  - intros m0 t1 t0 ops Hgt Hops.
    eapply verify_oauth_state_false_of_evolved; [by apply run_evolves|].
    unfold store_oauth_state. rewrite lookup_insert_eq.
    intros d' [= <-]. right. simpl. lia.
Qed.

(** C9.  After [store_oauth_state] or [verify_oauth_state] returns, every
    record in the store is at most 600 seconds older than the clock
    reading the operation handed to its sweep.  The record
    [store_oauth_state] writes carries the later, second reading, hence
    the premise that the clock did not run backwards. *)
Theorem no_expired_record_survives m op k d :
  clock_monotone op → step m op !! k = Some d → sweep_time op - timestamp d ≤ 600.
Proof.
  destruct op as [t1 t2 s|t s]; cbn [clock_monotone step sweep_time]; intros Hmono Hk.
  - unfold store_oauth_state in Hk.
    destruct (decide (s = k)) as [->|Hne].
    + rewrite lookup_insert_eq in Hk. injection Hk as <-. simpl. lia.
    + rewrite lookup_insert_ne in Hk by done.
      by apply cleanup_lookup_Some in Hk as [_ Hle].
  - destruct (verify_oauth_state t s m).1 eqn:Hv.
    + apply verify_oauth_state_true in Hv as (d0 & Hs & Hu & Hle).
      rewrite (verify_oauth_state_store_true t s m d0) in Hk by done.
      destruct (decide (s = k)) as [->|Hne].
      * rewrite lookup_insert_eq in Hk. by injection Hk as <-.
      * rewrite lookup_insert_ne in Hk by done.
        by apply cleanup_lookup_Some in Hk as [_ ?].
    + rewrite verify_oauth_state_store_false in Hk by done.
      by apply cleanup_lookup_Some in Hk as [_ ?].
Qed.

(** The operation [Issue 700 701 "s2"] on a store holding the expired
    state ["s1"]. *)
Lemma no_expired_record_survives_witness :
  clock_monotone (Issue 700 701 "s2")
  ∧ step (store_oauth_state 0 0 "s1" ∅) (Issue 700 701 "s2") !! "s2"
    = Some {| timestamp := 701; used := false |}
  ∧ sweep_time (Issue 700 701 "s2") - 701 ≤ 600.
Proof.
  assert (step (store_oauth_state 0 0 "s1" ∅) (Issue 700 701 "s2") !! "s2"
          = Some {| timestamp := 701; used := false |}) as Hk by (by vm_compute).
  assert (clock_monotone (Issue 700 701 "s2")) as Hm by (simpl; lia).
  split; [exact Hm|]. split; [exact Hk|].
  exact (no_expired_record_survives _ _ _ _ Hm Hk).
Defined.

(** Measured against the second clock reading of [store_oauth_state],
    a surviving record can be older than 600 seconds by at most the
    time that passed between the two readings. *)
Lemma store_oauth_state_age m t1 t2 s k d :
  store_oauth_state t1 t2 s m !! k = Some d → t1 ≤ t2 →
  t2 - timestamp d ≤ 600 + (t2 - t1).
Proof.
  intros Hk Hmono. unfold store_oauth_state in Hk.
  destruct (decide (s = k)) as [->|Hne].
  - rewrite lookup_insert_eq in Hk. injection Hk as <-. simpl. lia.
  - rewrite lookup_insert_ne in Hk by done.
    apply cleanup_lookup_Some in Hk as [_ Hle]. lia.
Qed.

(** C10.  [store_oauth_state] on a state that is already in the store
    replaces its record by a fresh one, not used and stamped with the
    current time, so that the state verifies again within the next 600
    seconds, also when the old record was used. *)
Theorem store_oauth_state_reissue m t1 t2 t3 s old :
  m !! s = Some old → t3 - t2 ≤ 600 →
  store_oauth_state t1 t2 s m !! s = Some {| timestamp := t2; used := false |}
  ∧ (verify_oauth_state t3 s (store_oauth_state t1 t2 s m)).1 = true.
Proof.
  intros _ Hle. unfold store_oauth_state.
  split; [apply lookup_insert_eq|].
  apply verify_oauth_state_true. eexists. split; [apply lookup_insert_eq|]. done.
Qed.

End StateStoreFacts.

(** ** The reference library meets the contract *)

Lemma pos_of_bits_of_pos p : RefJwt.pos_of_bits (RefJwt.bits_of_pos p) = Some p.
Proof.
  induction p as [p IH|p IH|]; cbn [RefJwt.bits_of_pos RefJwt.pos_of_bits]; [| |done].
  - rewrite decide_False by done. rewrite decide_True by done. by rewrite IH.
  - rewrite decide_True by done. by rewrite IH.
Qed.

Lemma count_char_bits_of_pos p : count_char "." (RefJwt.bits_of_pos p) = 0%nat.
Proof.
  induction p as [p IH|p IH|]; cbn [RefJwt.bits_of_pos count_char]; [| |done];
    by rewrite decide_False.
Qed.

Lemma split_nonempty sep s : split sep s ≠ [].
Proof.
  destruct s as [|c s]; cbn [split]; [done|].
  destruct (decide (c = sep)); [done|]. by destruct (split sep s).
Qed.

Lemma split_no_sep sep s : count_char sep s = 0%nat → split sep s = [s].
Proof.
  induction s as [|c s IH]; cbn [count_char split]; [done|].
  destruct (decide (c = sep)); [done|]. intros H. by rewrite IH.
Qed.

Lemma split_app sep a b :
  count_char sep a = 0%nat → split sep (a +:+ String sep b) = a :: split sep b.
Proof.
  induction a as [|c a IH]; intros H.
  - change (split sep (String sep b) = "" :: split sep b).
    cbn [split]. destruct (decide (sep = sep)); [reflexivity|done].
  - change (split sep (String c (a +:+ String sep b)) = String c a :: split sep b).
    cbn [count_char split] in *.
    destruct (decide (c = sep)); [done|]. by rewrite IH.
Qed.

Lemma length_split sep s : length (split sep s) = S (count_char sep s).
Proof.
  induction s as [|c s IH]; cbn [count_char split]; [done|].
  destruct (decide (c = sep)); cbn [length]; [by rewrite IH|].
  destruct (split sep s) as [|piece pieces] eqn:Hs; [by destruct (split_nonempty sep s)|].
  by rewrite <- IH.
Qed.

Lemma segment_decode_Some segment signature :
  RefJwt.segment_decode segment = Some signature → signature = segment.
Proof.
  unfold RefJwt.segment_decode. destruct (RefJwt.pos_of_bits segment); [|done].
  cbn. congruence.
Qed.

Lemma segment_decode_mac key message :
  RefJwt.segment_decode (RefJwt.mac key message) = Some (RefJwt.mac key message).
Proof.
  unfold RefJwt.segment_decode, RefJwt.mac. by rewrite pos_of_bits_of_pos.
Qed.

Lemma append_assoc (a b c : string) : (a +:+ b) +:+ c = a +:+ b +:+ c.
Proof.
  induction a as [|x a IH]; [done|].
  change (String x ((a +:+ b) +:+ c) = String x (a +:+ b +:+ c)). by rewrite IH.
Qed.

Lemma split_token payload crypto :
  count_char "." payload = 0%nat → count_char "." crypto = 0%nat →
  split "." (RefJwt.header_segment +:+ "." +:+ payload +:+ "." +:+ crypto)
  = [RefJwt.header_segment; payload; crypto].
Proof.
  intros Hp Hc.
  change ("." +:+ payload +:+ "." +:+ crypto)
    with (String "." (payload +:+ String "." crypto)).
  rewrite split_app by done. rewrite split_app by done.
  by rewrite split_no_sep.
Qed.

Lemma RefJwt_decode_encode payload key now :
  RefJwt.decode_token (RefJwt.encode_token payload key) key now
  = RefJwt.validate_claims payload now.
Proof.
  unfold RefJwt.decode_token, RefJwt.encode_token. cbv zeta.
  set (p := RefJwt.payload_segment payload).
  set (m := RefJwt.mac key (RefJwt.header_segment +:+ "." +:+ p)).
  assert (count_char "." p = 0%nat) as Hp by apply count_char_bits_of_pos.
  assert (count_char "." m = 0%nat) as Hm by apply count_char_bits_of_pos.
  replace ((RefJwt.header_segment +:+ "." +:+ p) +:+ "." +:+ m)
    with (RefJwt.header_segment +:+ "." +:+ p +:+ "." +:+ m)
    by (by rewrite !append_assoc).
  rewrite split_token by done.
  rewrite bool_decide_true by done. cbn [negb].
  unfold m at 1. rewrite segment_decode_mac.
  rewrite bool_decide_true by done. cbn [negb].
  unfold p, RefJwt.payload_segment. rewrite pos_of_bits_of_pos.
  cbn [mbind option_bind]. by rewrite decode_encode.
Qed.

Lemma validate_claims_Ok payload now payload' :
  RefJwt.validate_claims payload now = Ok payload' →
  payload' = payload ∧ string_claim "sub" payload.
Proof.
  unfold RefJwt.validate_claims, RefJwt.validate_sub, RefJwt.validate_jti, string_claim.
  intros H.
  assert (match payload !! "sub" with Some (JStr _) | None => True | Some _ => False end
          ∧ payload' = payload) as [Hs ->].
  { destruct (payload !! "exp") as [[| |exp|]|]; try done;
      [destruct (exp <=? now); [done|]|];
      (destruct (payload !! "sub") as [[| | |s]|]; try done;
       destruct (payload !! "jti") as [[| | |j]|]; try done; by injection H as <-). }
  split; [done|]. intros v Hv. rewrite Hv in Hs. destruct v; try done. by eexists.
Qed.

Lemma validate_sub_Ok payload :
  string_claim "sub" payload → string_claim "jti" payload →
  RefJwt.validate_sub payload = Ok payload.
Proof.
  unfold string_claim, RefJwt.validate_sub, RefJwt.validate_jti. intros Hs Hj.
  destruct (payload !! "sub") as [v|].
  - destruct (Hs v eq_refl) as [s ->].
    destruct (payload !! "jti") as [w|]; [|done]. by destruct (Hj w eq_refl) as [j ->].
  - destruct (payload !! "jti") as [w|]; [|done]. by destruct (Hj w eq_refl) as [j ->].
Qed.

Global Instance RefJwt_laws : JwtLaws RefJwt.lib.
Proof.
  split.
  - intros payload key now exp Hexp _ Hs Hj Hlt. simpl.
    rewrite RefJwt_decode_encode. unfold RefJwt.validate_claims. rewrite Hexp.
    destruct (Z.leb_spec exp now); [lia|]. by apply validate_sub_Ok.
  - intros payload key now exp Hexp _ Hlt. simpl.
    rewrite RefJwt_decode_encode. unfold RefJwt.validate_claims. rewrite Hexp.
    destruct (Z.leb_spec exp now); [done|lia].
  - intros token key now payload. simpl. unfold RefJwt.decode_token.
    repeat case_match; try done.
    intros Hok. by apply validate_claims_Ok in Hok as [-> ?].
Qed.

Global Instance RefJwt_jws_laws : JwsLaws RefJwt.lib RefJwt.jws.
Proof.
  split.
  - intros token key now Hlt. simpl. unfold RefJwt.decode_token.
    pose proof (length_split "." token) as Hlen.
    destruct (split "." token) as [|a [|b [|c [|d l]]]]; try done.
    cbn [length] in Hlen. lia.
  - intros p c key now _ Hp Hc Hsig.
    change (RefJwt.segment_decode c
            ≠ Some (RefJwt.mac key (RefJwt.header_segment +:+ "." +:+ p))) in Hsig.
    change (∃ e, RefJwt.decode_token
                   ((RefJwt.header_segment +:+ "." +:+ p) +:+ "." +:+ c) key now = Raise e
                 ∧ isinstance_InvalidTokenError e = true).
    rewrite append_assoc.
    change (("." +:+ p) +:+ "." +:+ c) with ("." +:+ p +:+ "." +:+ c).
    unfold RefJwt.decode_token.
    rewrite split_token by done.
    rewrite bool_decide_true by done. cbn [negb].
    destruct (RefJwt.segment_decode c) as [signature|] eqn:Hdec; [|by eexists].
    apply segment_decode_Some in Hdec as ->.
    rewrite bool_decide_false; [by eexists|].
    intros Heq. apply Hsig. by rewrite <- Heq.
  - intros payload key _. simpl. split; [apply count_char_bits_of_pos|].
    eexists. split; [reflexivity|]. split; [apply count_char_bits_of_pos|].
    apply segment_decode_mac.
Qed.

(** ** Session tokens *)

Section Tokens.

Context {lib : JwtLib}.
Variable JWT_SECRET : string.
Local Abbreviation create_jwt_payload := AuthService.create_jwt_payload.
Local Abbreviation create_jwt_token := (AuthService.create_jwt_token JWT_SECRET).
Local Abbreviation verify_jwt_token := (AuthService.verify_jwt_token JWT_SECRET).

Lemma create_jwt_payload_ok utcnow (user_info : PyDict) sub email name role :
  user_info !! "sub" = Some sub → user_info !! "email" = Some email →
  user_info !! "name" = Some name → user_info !! "role" = Some role →
  create_jwt_payload utcnow user_info
  = Ok (<["sub" := sub]> (<["email" := email]> (<["name" := name]>
        (<["role" := role]>
        (<["picture" := dict_get_default user_info "picture" (JStr "")]>
        (<["exp" := JNum (utcnow + 28800)]> ∅)))))).
Proof.
  intros Hs He Hn Hr. unfold create_jwt_payload, getitem.
  by rewrite Hs, He, Hn, Hr.
Qed.

Lemma verify_jwt_token_decoded now token payload :
  jwt_decode token JWT_SECRET now = Ok payload →
  verify_jwt_token now token = Ok (Some payload).
Proof. unfold AuthService.verify_jwt_token. by intros ->. Qed.

Lemma verify_jwt_token_Some now token claims :
  verify_jwt_token now token = Ok (Some claims) →
  jwt_decode token JWT_SECRET now = Ok claims.
Proof.
  unfold AuthService.verify_jwt_token.
  destruct (jwt_decode token JWT_SECRET now) as [payload|e]; [congruence|].
  destruct (isinstance_ExpiredSignatureError e); [done|].
  by destruct (isinstance_InvalidTokenError e).
Qed.


(** The payload [create_jwt_token] makes of an identity whose [sub] is
    a string decodes from its token until eight hours after issuance. *)
Lemma jwt_decode_issued `{!JwtLaws lib} utcnow now (sub : string)
    (email name role picture : JVal) :
  now < utcnow + 28800 →
  jwt_decode
    (jwt_encode (<["sub" := JStr sub]> (<["email" := email]> (<["name" := name]>
                 (<["role" := role]> (<["picture" := picture]>
                 (<["exp" := JNum (utcnow + 28800)]> ∅))))))
                JWT_SECRET) JWT_SECRET now
  = Ok (<["sub" := JStr sub]> (<["email" := email]> (<["name" := name]>
        (<["role" := role]> (<["picture" := picture]>
        (<["exp" := JNum (utcnow + 28800)]> ∅)))))).
Proof.
  intros Hlt. eapply jwt_decode_encode_fresh; [| | | |exact Hlt].
  - by simplify_map_eq.
  - by repeat split; simplify_map_eq.
  - intros v Hv. simplify_map_eq. by eexists.
  - intros v Hv. by simplify_map_eq.
Qed.



(** C4 (amended).  A token issued for an identity whose [sub] is a
    string verifies under the same secret at any time before eight
    hours have passed since issuance, and the returned claims carry the
    identity's [sub], [email], [name], [role] and [picture] (the empty
    string when the identity has none). *)
Theorem verify_create_roundtrip `{!JwtLaws lib} issued now (user_info : PyDict)
    (sub : string) email name role :
  user_info !! "sub" = Some (JStr sub) → user_info !! "email" = Some email →
  user_info !! "name" = Some name → user_info !! "role" = Some role →
  now < issued + 28800 →
  ∃ token claims,
    create_jwt_token issued user_info = Ok token
    ∧ verify_jwt_token now token = Ok (Some claims)
    ∧ claims !! "sub" = Some (JStr sub)
    ∧ claims !! "email" = Some email
    ∧ claims !! "name" = Some name
    ∧ claims !! "role" = Some role
    ∧ claims !! "picture" = Some (default (JStr "") (user_info !! "picture")).
Proof.
  intros Hs He Hn Hr Hlt.
  unfold AuthService.create_jwt_token.
  rewrite (create_jwt_payload_ok issued user_info (JStr sub) email name role) by done.
  eexists _, _. split; [reflexivity|]. split.
  - apply verify_jwt_token_decoded. by apply jwt_decode_issued.
  - by simplify_map_eq.
Qed.


(** Once eight hours have passed, the token of [create_jwt_token] is
    refused, with the same [None] as any other invalid token. *)
Lemma verify_jwt_token_expired `{!JwtLaws lib} issued now (user_info : PyDict)
    sub email name role :
  user_info !! "sub" = Some sub → user_info !! "email" = Some email →
  user_info !! "name" = Some name → user_info !! "role" = Some role →
  issued + 28800 < now →
  ∃ token,
    create_jwt_token issued user_info = Ok token
    ∧ verify_jwt_token now token = Ok None.
Proof.
  intros Hs He Hn Hr Hlt.
  unfold AuthService.create_jwt_token.
  rewrite (create_jwt_payload_ok issued user_info sub email name role) by done.
  eexists. split; [reflexivity|].
  unfold AuthService.verify_jwt_token.
  erewrite jwt_decode_encode_expired; [done| | |exact Hlt].
  - by simplify_map_eq.
  - by repeat split; simplify_map_eq.
Qed.

(** C8 (amended).  The payload of [create_jwt_token] has exactly the
    claims [sub], [email], [name], [role], [picture] and [exp]: there
    is no [issued_at] claim, [picture] is always present, [exp] is the
    time of issuance plus 28800 seconds, and the token is the encoding
    of this whole payload under the secret. *)
Theorem create_jwt_token_claims utcnow (user_info : PyDict) sub email name role :
  user_info !! "sub" = Some sub → user_info !! "email" = Some email →
  user_info !! "name" = Some name → user_info !! "role" = Some role →
  ∃ payload,
    create_jwt_payload utcnow user_info = Ok payload
    ∧ create_jwt_token utcnow user_info = Ok (jwt_encode payload JWT_SECRET)
    ∧ dom payload = {[ "sub"; "email"; "name"; "role"; "picture"; "exp" ]}
    ∧ payload !! "sub" = Some sub
    ∧ payload !! "email" = Some email
    ∧ payload !! "name" = Some name
    ∧ payload !! "role" = Some role
    ∧ payload !! "picture" = Some (default (JStr "") (user_info !! "picture"))
    ∧ payload !! "exp" = Some (JNum (utcnow + 28800)).
Proof.
  intros Hs He Hn Hr. eexists. split.
  { by apply create_jwt_payload_ok. }
  split.
  { unfold AuthService.create_jwt_token.
    by rewrite (create_jwt_payload_ok utcnow user_info sub email name role). }
  split.
  { rewrite !dom_insert_L, dom_empty_L. set_solver. }
  by simplify_map_eq.
Qed.

End Tokens.

(** The payload made of [alice] at second 1000. *)
Lemma create_jwt_token_claims_witness :
  ∃ payload,
    AuthService.create_jwt_payload 1000 Fixtures.alice = Ok payload
    ∧ AuthService.create_jwt_token (lib := RefJwt.lib) "secret" 1000 Fixtures.alice
      = Ok (RefJwt.encode_token payload "secret")
    ∧ dom payload = {[ "sub"; "email"; "name"; "role"; "picture"; "exp" ]}
    ∧ payload !! "sub" = Some (JStr "1001")
    ∧ payload !! "email" = Some (JStr "alice@example.com")
    ∧ payload !! "name" = Some (JStr "Alice")
    ∧ payload !! "role" = Some (JStr "user")
    ∧ payload !! "picture" = Some (default (JStr "") (Fixtures.alice !! "picture"))
    ∧ payload !! "exp" = Some (JNum (1000 + 28800)).
Proof.
  apply (create_jwt_token_claims (lib := RefJwt.lib) "secret" 1000 Fixtures.alice);
    reflexivity.
Defined.

(** C8 as stated fails: the payload made of [alice] at second 1000 has
    no [iat] claim. *)
Lemma create_jwt_payload_no_issued_at :
  ¬ (∀ utcnow user_info payload,
       AuthService.create_jwt_payload utcnow user_info = Ok payload →
       carries_issued_at payload).
Proof.
  intros Hall.
  destruct (Hall 1000 Fixtures.alice _ eq_refl) as (iat & Hiat & _).
  vm_compute in Hiat. discriminate.
Qed.


Section Refresh.
Context {lib : JwtLib}.
Variable JWT_SECRET : string.
Local Abbreviation create_jwt_token := (AuthService.create_jwt_token JWT_SECRET).
Local Abbreviation verify_jwt_token := (AuthService.verify_jwt_token JWT_SECRET).
Local Abbreviation refresh_token := (AuthService.refresh_token JWT_SECRET).

Lemma truthy_str_true s : truthy_str s = true ↔ s ≠ "".
Proof. by destruct s. Qed.

Lemma refresh_token_missing now utcnow (data : gmap string string) :
  truthy_opt_str (data !! "token") = false →
  refresh_token now utcnow (Some data) = json_error 400 "Token required".
Proof. unfold AuthService.refresh_token. by intros ->. Qed.

Lemma refresh_token_invalid now utcnow (data : gmap string string) token payload :
  data !! "token" = Some token → token ≠ "" →
  verify_jwt_token now token = Ok payload → truthy_opt_dict payload = false →
  refresh_token now utcnow (Some data) = json_error 401 "Invalid or expired token".
Proof.
  intros Hd Hne Hv Hp. unfold AuthService.refresh_token.
  rewrite Hd. cbn [truthy_opt_str default from_option id].
  apply truthy_str_true in Hne. rewrite Hne. cbn [negb].
  by rewrite Hv, Hp.
Qed.

Lemma refresh_token_valid now utcnow (data : gmap string string) token claims
    sub email name role :
  data !! "token" = Some token → token ≠ "" →
  verify_jwt_token now token = Ok (Some claims) →
  claims !! "sub" = Some sub → claims !! "email" = Some email →
  claims !! "name" = Some name → claims !! "role" = Some role →
  ∃ new_token,
    create_jwt_token utcnow
      (<["sub" := sub]> (<["email" := email]> (<["name" := name]>
       (<["role" := role]>
       (<["picture" := dict_get_default claims "picture" (JStr "")]> ∅)))))
    = Ok new_token
    ∧ refresh_token now utcnow (Some data)
      = {| status_code := 200; json_body := {[ "token" := JStr new_token ]} |}.
Proof.
  intros Hd Hne Hv Hs He Hn Hr. unfold AuthService.refresh_token.
  rewrite Hd. cbn [truthy_opt_str default from_option id].
  apply truthy_str_true in Hne. rewrite Hne. cbn [negb].
  rewrite Hv. cbn [truthy_opt_dict default from_option id].
  assert (claims ≠ ∅) as Hnonempty by (intros ->; by rewrite lookup_empty in Hs).
  rewrite bool_decide_false by done. cbn [negb].
  unfold getitem. rewrite Hs, He, Hn, Hr. cbn [mbind PyResult_bind].
  destruct (create_jwt_token utcnow _) as [new_token|e] eqn:Hc.
  - by exists new_token.
  - unfold AuthService.create_jwt_token in Hc.
    rewrite (create_jwt_payload_ok utcnow _ sub email name role) in Hc
      by (by simplify_map_eq).
    done.
Qed.


(** The handler answers an error without a token, or 200. *)
Lemma refresh_token_error_or_ok now utcnow get_json :
  (∃ status message, refresh_token now utcnow get_json = json_error status message
                     ∧ status ≠ 200)
  ∨ status_code (refresh_token now utcnow get_json) = 200.
Proof.
  unfold AuthService.refresh_token.
  destruct get_json as [data|]; [|left; by eexists _, _].
  destruct (negb (truthy_opt_str (data !! "token"))); [left; by eexists _, _|].
  destruct (verify_jwt_token now _) as [payload|e]; [|left; by eexists _, _].
  destruct (negb (truthy_opt_dict payload)); [left; by eexists _, _|].
  match goal with |- context [match ?x with Ok _ => _ | Raise _ => _ end] =>
    destruct x as [new_token|e] end; [by right|left; by eexists _, _].
Qed.

(** C7 (amended).  [/auth/refresh]: a missing or empty token is answered
    400; a token that does not verify is answered 401; a token that
    verifies with [sub], [email], [name] and [role] claims is answered
    200 with a new token that verifies until eight hours after the
    refresh and carries the same [sub], [email], [name] and [role],
    with [exp] eight hours after the refresh; no answer other than 200
    carries a token. *)
Theorem refresh_token_reissues `{!JwtLaws lib} now utcnow (data : gmap string string) :
  (truthy_opt_str (data !! "token") = false →
     refresh_token now utcnow (Some data) = json_error 400 "Token required")
  ∧ (∀ token payload,
       data !! "token" = Some token → token ≠ "" →
       verify_jwt_token now token = Ok payload → truthy_opt_dict payload = false →
       refresh_token now utcnow (Some data) = json_error 401 "Invalid or expired token")
  ∧ (∀ token claims sub email name role,
       data !! "token" = Some token → token ≠ "" →
       verify_jwt_token now token = Ok (Some claims) →
       claims !! "sub" = Some sub → claims !! "email" = Some email →
       claims !! "name" = Some name → claims !! "role" = Some role →
       ∃ new_token,
         refresh_token now utcnow (Some data)
         = {| status_code := 200; json_body := {[ "token" := JStr new_token ]} |}
         ∧ ∀ t, t < utcnow + 28800 →
             ∃ new_claims,
               verify_jwt_token t new_token = Ok (Some new_claims)
               ∧ new_claims !! "sub" = Some sub
               ∧ new_claims !! "email" = Some email
               ∧ new_claims !! "name" = Some name
               ∧ new_claims !! "role" = Some role
               ∧ new_claims !! "exp" = Some (JNum (utcnow + 28800)))
  ∧ (status_code (refresh_token now utcnow (Some data)) ≠ 200 →
       json_body (refresh_token now utcnow (Some data)) !! "token" = None).
Proof.
  split; [apply refresh_token_missing|].
  split; [apply refresh_token_invalid|].
  split.
  - intros token claims sub email name role Hd Hne Hv Hs He Hn Hr.
    destruct (refresh_token_valid now utcnow data token claims sub email name role)
      as (new_token & Hc & Hrefresh); try done.
    exists new_token. split; [done|]. intros t Ht.
    unfold AuthService.create_jwt_token in Hc.
    rewrite (create_jwt_payload_ok utcnow _ sub email name role) in Hc
      by (by simplify_map_eq).
    injection Hc as <-.
    destruct (jwt_decode_subject token JWT_SECRET now claims
                (verify_jwt_token_Some JWT_SECRET now token claims Hv) sub Hs)
      as [subject ->].
    eexists. split.
    + apply verify_jwt_token_decoded. by apply jwt_decode_issued.
    + by simplify_map_eq.
  - intros Hstatus.
    destruct (refresh_token_error_or_ok now utcnow (Some data))
      as [(status & message & -> & _)|H200]; [done|congruence].
Qed.

End Refresh.

(** ** The guards of the resource service *)

Section Guards.
Context {lib : JwtLib}.
Variable JWT_SECRET : string.
Local Abbreviation verify_jwt_token := (ResourceService.verify_jwt_token JWT_SECRET).
Local Abbreviation login_required := (ResourceService.login_required JWT_SECRET).
Local Abbreviation protected := (ResourceService.protected JWT_SECRET).

Lemma startswith_truthy prefix s :
  prefix ≠ "" → startswith prefix s = true → truthy_str s = true.
Proof. destruct prefix, s; done. Qed.

Lemma truthy_opt_dict_Some claims :
  claims ≠ ∅ → truthy_opt_dict (Some claims) = true.
Proof. intros Hne. unfold truthy_opt_dict. by rewrite bool_decide_false. Qed.

Lemma login_required_verified (f : View) now request auth_header token claims :
  authorization request = Some auth_header →
  startswith "Bearer " auth_header = true →
  split " " auth_header !! 1%nat = Some token →
  verify_jwt_token now token = Ok (Some claims) → claims ≠ ∅ →
  login_required f now request = f (set_user claims request).
Proof.
  intros Hh Hpre Htok Hv Hne. unfold ResourceService.login_required.
  rewrite Hh, Hpre, (startswith_truthy "Bearer " auth_header) by done.
  cbn [negb orb]. rewrite Htok. cbn [mbind PyResult_bind]. rewrite Hv.
  cbn [mbind PyResult_bind]. by rewrite truthy_opt_dict_Some.
Qed.

Lemma admin_required_spec (f : View) request claims :
  user request = Some claims →
  ResourceService.admin_required f request
  = if bool_decide (claims !! "role" = Some (JStr "admin")) then f request
    else Ok (json_error 403 "Admin access required").
Proof.
  intros Hu. unfold ResourceService.admin_required, dict_get. rewrite Hu.
  destruct (claims !! "role") as [v|] eqn:Hr; cbn [default from_option id].
  - destruct (decide (v = JStr "admin")) as [->|Hne].
    + rewrite bool_decide_false by (intros ?; done).
      by rewrite bool_decide_true.
    + rewrite bool_decide_true by done.
      rewrite bool_decide_false; [done|congruence].
  - rewrite bool_decide_true by done. by rewrite bool_decide_false.
Qed.

Lemma authorize_true claims required_role :
  authorize claims required_role = true
  ↔ required_role = any_authenticated
    ∨ (required_role = admin ∧ claims !! "role" = Some (JStr "admin")).
Proof.
  unfold authorize. rewrite orb_true_iff, !bool_decide_eq_true.
  destruct required_role.
  - split; [by left|by left].
  - split.
    + intros [?|Hr]; [done|by right].
    + intros [?|[_ Hr]]; [done|by right].
Qed.

(** C5.  For a request whose bearer token verifies to non-empty
    [claims], a protected route runs its view exactly when
    [authorize claims required_role] holds, and answers 403 otherwise;
    [authorize] holds iff the route asks for any authenticated user, or
    asks for an admin and the role claim is the string ["admin"]; any
    other role value is not an admin. *)
Theorem protected_authorize (f : View) now request auth_header token claims
    required_role :
  authorization request = Some auth_header →
  startswith "Bearer " auth_header = true →
  split " " auth_header !! 1%nat = Some token →
  verify_jwt_token now token = Ok (Some claims) → claims ≠ ∅ →
  protected required_role f now request
  = (if authorize claims required_role then f (set_user claims request)
     else Ok (json_error 403 "Admin access required"))
  ∧ (authorize claims required_role = true
     ↔ required_role = any_authenticated
       ∨ (required_role = admin ∧ claims !! "role" = Some (JStr "admin")))
  ∧ (∀ role, claims !! "role" = Some role → role ≠ JStr "admin" →
       authorize claims admin = false).
Proof.
  intros Hh Hpre Htok Hv Hne.
  split; [|split; [apply authorize_true|]].
  - unfold ResourceService.protected. destruct required_role.
    + by rewrite (login_required_verified f now request auth_header token claims).
    + rewrite (login_required_verified _ now request auth_header token claims)
        by done.
      rewrite (admin_required_spec f _ claims) by done.
      unfold authorize. by rewrite (bool_decide_false (admin = _)) by discriminate.
  - intros role Hr Hnot. apply not_true_is_false. rewrite authorize_true.
    intros [?|[_ ?]]; [done|congruence].
Qed.

End Guards.

(** ** The callback *)

Lemma append_inj_r (p a b : string) : p +:+ a = p +:+ b → a = b.
Proof. induction p as [|c p IH]; simpl; [done|]. intros [= H]. by apply IH. Qed.

Section Callback.
Context {lib : JwtLib}.
Variable JWT_SECRET : string.
Variable USER_ROLES : PyDict.
Variable FRONTEND_URL : string.
Local Abbreviation login_error := (AuthService.login_error FRONTEND_URL).
Local Abbreviation auth_success := (AuthService.auth_success FRONTEND_URL).
Local Abbreviation exchange_code :=
  (AuthService.exchange_code JWT_SECRET USER_ROLES FRONTEND_URL).
Local Abbreviation oauth_callback :=
  (AuthService.oauth_callback JWT_SECRET USER_ROLES FRONTEND_URL).
Local Abbreviation check_state := AuthService.check_state.

Lemma login_error_inj r1 r2 : login_error r1 = login_error r2 → r1 = r2.
Proof.
  unfold AuthService.login_error. intros [= H].
  by apply append_inj_r, append_inj_r in H.
Qed.

Lemma auth_success_not_error jwt_token reason :
  auth_success jwt_token ≠ login_error reason.
Proof.
  unfold AuthService.auth_success, AuthService.login_error. intros [= H].
  apply append_inj_r in H. simpl in H. discriminate.
Qed.

Lemma exchange_code_not_state_mismatch idp utcnow code :
  (exchange_code idp utcnow code).1.1 ≠ login_error "state_mismatch".
Proof.
  unfold AuthService.exchange_code.
  repeat match goal with
  | |- context [match ?x with _ => _ end] => destruct x; simpl
  end;
  first [ apply auth_success_not_error
        | intros H; apply login_error_inj in H; discriminate ].
Qed.

Lemma check_state_true now state session_state m :
  (check_state now state session_state m).1 = true
  ↔ state_accepted now state session_state m.
Proof.
  unfold AuthService.check_state, state_accepted.
  destruct state as [s|]; [|split; [done|by intros (s & ? & _)]].
  destruct (truthy_str s) eqn:Hs.
  - apply truthy_str_true in Hs.
    destruct (verify_oauth_state now s m) as [verified m'] eqn:Hv; simpl.
    destruct verified.
    + split; [|done]. intros _. exists s. repeat split; [done|].
      left. by rewrite Hv.
    + destruct (decide (Some s = session_state)) as [Heq|Hne]; simpl.
      * split; [|done]. intros _. exists s. repeat split; [done|by right].
      * split; [done|]. intros (s' & [= <-] & _ & [Ht|?]); [|done].
        rewrite Hv in Ht. discriminate.
  - split; [done|]. intros (s' & [= <-] & Hne & _).
    apply truthy_str_true in Hne. congruence.
Qed.

Lemma check_state_store now s session_state m :
  s ≠ "" →
  (check_state now (Some s) session_state m).2 = (verify_oauth_state now s m).2.
Proof.
  intros Hs. apply truthy_str_true in Hs. unfold AuthService.check_state.
  rewrite Hs. destruct (verify_oauth_state now s m) as [[] m']; simpl; [done|].
  by destruct (decide _).
Qed.

Lemma oauth_callback_store idp now utcnow args session m :
  cb_oauth_states (oauth_callback idp now utcnow args session m)
  = (check_state now (arg_state args) (session !! "oauth_state") m).2.
Proof.
  unfold AuthService.oauth_callback.
  destruct (check_state _ _ _ _) as [state_valid m']; simpl.
  destruct state_valid; simpl; [|done].
  destruct (arg_code args) as [code|]; [|done].
  destruct (truthy_str code); simpl; [|done].
  by destruct (exchange_code idp utcnow code) as [[response clear] calls].
Qed.

Lemma oauth_callback_state_mismatch idp now utcnow args session m :
  cb_response (oauth_callback idp now utcnow args session m)
  = login_error "state_mismatch"
  ↔ ¬ state_accepted now (arg_state args) (session !! "oauth_state") m.
Proof.
  rewrite <- check_state_true. unfold AuthService.oauth_callback.
  destruct (check_state _ _ _ _) as [state_valid m']; simpl.
  destruct state_valid; simpl; [|split; [by intros _ ?|done]].
  split; [|done]. intros Hresp. exfalso. revert Hresp.
  destruct (arg_code args) as [code|]; simpl.
  - destruct (truthy_str code); simpl.
    + pose proof (exchange_code_not_state_mismatch idp utcnow code) as Hne.
      by destruct (exchange_code idp utcnow code) as [[response clear] calls].
    + intros H. apply login_error_inj in H. discriminate.
  - intros H. apply login_error_inj in H. discriminate.
Qed.

(** C6 (amended).  When the authorization code is absent or empty, the
    callback makes no external call and leaves the session as it was;
    the state check comes first: the answer is [no_code] when the state
    is accepted and [state_mismatch] when it is not, and a non-empty
    state parameter has been run through [verify_oauth_state] either
    way. *)
Theorem oauth_callback_missing_code idp now utcnow args session m :
  truthy_opt_str (arg_code args) = false →
  cb_calls (oauth_callback idp now utcnow args session m) = []
  ∧ cb_session (oauth_callback idp now utcnow args session m) = session
  ∧ (state_accepted now (arg_state args) (session !! "oauth_state") m →
       cb_response (oauth_callback idp now utcnow args session m)
       = login_error "no_code")
  ∧ (¬ state_accepted now (arg_state args) (session !! "oauth_state") m →
       cb_response (oauth_callback idp now utcnow args session m)
       = login_error "state_mismatch")
  ∧ (∀ s, arg_state args = Some s → s ≠ "" →
       cb_oauth_states (oauth_callback idp now utcnow args session m)
       = (verify_oauth_state now s m).2).
Proof.
  intros Hcode.
  split; [|split; [|split; [|split]]].
  - unfold AuthService.oauth_callback.
    destruct (check_state _ _ _ _) as [[] m']; simpl; [|done].
    destruct (arg_code args) as [code|]; [|done].
    simpl in Hcode. by rewrite Hcode.
  - unfold AuthService.oauth_callback.
    destruct (check_state _ _ _ _) as [[] m']; simpl; [|done].
    destruct (arg_code args) as [code|]; [|done].
    simpl in Hcode. by rewrite Hcode.
  - intros Hacc. apply check_state_true in Hacc.
    unfold AuthService.oauth_callback.
    destruct (check_state _ _ _ _) as [state_valid m']; simpl in *. subst.
    simpl. destruct (arg_code args) as [code|]; [|done].
    simpl in Hcode. by rewrite Hcode.
  - apply oauth_callback_state_mismatch.
  - intros s Hs Hne. rewrite oauth_callback_store, Hs. by apply check_state_store.
Qed.

Lemma verify_oauth_state_consumed now s m :
  (verify_oauth_state now s m).2 !! s = None
  ∨ ∃ d, (verify_oauth_state now s m).2 !! s = Some d ∧ used d = true.
Proof.
  unfold verify_oauth_state; simpl.
  destruct (cleanup_expired_states now m !! s) as [d|] eqn:Hc; [|by left].
  destruct (used d) eqn:Hu; simpl.
  - right. by exists d.
  - right. rewrite lookup_insert_eq. by eexists.
Qed.

(** C1 (amended).  When the callback is invoked twice with the same
    state, the store refuses the state at the second invocation, and
    the second invocation answers [state_mismatch] exactly when the
    state is empty or the session presented with it does not carry that
    state as [oauth_state]: the session echo is accepted whenever the
    store check fails, whatever the cause. *)
Theorem oauth_callback_replay idp1 idp2 now1 utcnow1 now2 utcnow2 s code1 code2
    session1 session2 m :
  let first := oauth_callback idp1 now1 utcnow1
                 {| arg_state := Some s; arg_code := code1 |} session1 m in
  let second := oauth_callback idp2 now2 utcnow2
                  {| arg_state := Some s; arg_code := code2 |} session2
                  (cb_oauth_states first) in
  (s ≠ "" → (verify_oauth_state now2 s (cb_oauth_states first)).1 = false)
  ∧ (cb_response second = login_error "state_mismatch"
     ↔ s = "" ∨ session2 !! "oauth_state" ≠ Some s).
Proof.
  intros first second.
  assert (s ≠ "" → (verify_oauth_state now2 s (cb_oauth_states first)).1 = false)
    as Hconsumed.
  { intros Hs. unfold first. rewrite oauth_callback_store. cbn [arg_state].
    rewrite check_state_store by done.
    apply not_true_is_false. intros Ht.
    apply verify_oauth_state_true in Ht as (d & Hk & Hu & _).
    destruct (verify_oauth_state_consumed now1 s m) as [Hn|(d' & Hk' & Hu')];
      simplify_eq. congruence. }
  split; [done|].
  unfold second. rewrite oauth_callback_state_mismatch. cbn [arg_state].
  unfold state_accepted. split.
  - intros Hno. destruct (decide (s = "")) as [|Hs]; [by left|right].
    intros Hsess. apply Hno. exists s. repeat split; [done|by right].
  - intros Hor (s' & [= <-] & Hs & Hacc).
    destruct Hor as [?|Hsess]; [done|].
    destruct Hacc as [Hv|?]; [|done].
    rewrite Hconsumed in Hv by done. discriminate.
Qed.

End Callback.

(** ** Instances on the sample data *)

Import Fixtures.


(** [alice]'s token, issued at second 1000 and verified at second 2000. *)
Lemma verify_create_roundtrip_witness :
  ∃ token claims,
    AuthService.create_jwt_token (lib := RefJwt.lib) secret 1000 alice = Ok token
    ∧ AuthService.verify_jwt_token (lib := RefJwt.lib) secret 2000 token
      = Ok (Some claims)
    ∧ claims !! "sub" = Some (JStr "1001")
    ∧ claims !! "email" = Some (JStr "alice@example.com")
    ∧ claims !! "name" = Some (JStr "Alice")
    ∧ claims !! "role" = Some (JStr "user")
    ∧ claims !! "picture" = Some (default (JStr "") (alice !! "picture")).
Proof.
  apply (verify_create_roundtrip (lib := RefJwt.lib) secret 1000 2000 alice "1001");
    [reflexivity..|lia].
Defined.

(** C4 as stated fails for an identity whose [sub] is not a string: a
    token is issued for [alice] with the number 1001 as [sub] at second
    1000, and it is refused at second 2000, as it is at any time. *)
Lemma verify_create_roundtrip_numeric_sub :
  let user_info : PyDict := <["sub" := JNum 1001]> alice in
  ∃ token,
    AuthService.create_jwt_token (lib := RefJwt.lib) secret 1000 user_info = Ok token
    ∧ AuthService.verify_jwt_token (lib := RefJwt.lib) secret 2000 token = Ok None
    ∧ ∀ now claims,
        AuthService.verify_jwt_token (lib := RefJwt.lib) secret now token
        ≠ Ok (Some claims).
Proof.
  cbv zeta.
  exists (RefJwt.encode_token (<["exp" := JNum 29800]> (<["sub" := JNum 1001]> alice))
            secret).
  split; [vm_compute; reflexivity|].
  split; [vm_compute; reflexivity|].
  intros now claims Hv.
  apply verify_jwt_token_Some in Hv.
  change (RefJwt.decode_token
            (RefJwt.encode_token (<["exp" := JNum 29800]> (<["sub" := JNum 1001]> alice))
               secret) secret now = Ok claims) in Hv.
  rewrite RefJwt_decode_encode in Hv.
  apply validate_claims_Ok in Hv as [_ Hsub].
  destruct (Hsub (JNum 1001)) as [s Hs]; [vm_compute; reflexivity|discriminate].
Qed.

(** The admin's token on an admin route. *)
Lemma protected_authorize_witness :
  ResourceService.protected (lib := RefJwt.lib) secret admin view_ok 2000
    (bearer admin_token)
  = (if authorize admin_claims admin then view_ok (set_user admin_claims (bearer admin_token))
     else Ok (json_error 403 "Admin access required")).
Proof.
  refine (proj1 (protected_authorize (lib := RefJwt.lib) secret view_ok 2000
                   (bearer admin_token) ("Bearer " +:+ admin_token) admin_token
                   admin_claims admin eq_refl _ _ _ _)).
  - vm_compute. reflexivity.
  - vm_compute. reflexivity.
  - vm_compute. reflexivity.
  - intros H. apply (f_equal (λ m : PyDict, m !! "sub")) in H.
    vm_compute in H. discriminate.
Defined.

(** A callback without a code for an issued state. *)
Lemma oauth_callback_missing_code_witness :
  cb_calls (AuthService.oauth_callback (lib := RefJwt.lib) secret roles frontend
              idp_accepting 10 10 {| arg_state := Some "s1"; arg_code := None |}
              ∅ (store_oauth_state 0 0 "s1" ∅)) = [].
Proof.
  refine (proj1 (oauth_callback_missing_code (lib := RefJwt.lib) secret roles frontend
                   idp_accepting 10 10 {| arg_state := Some "s1"; arg_code := None |}
                   ∅ (store_oauth_state 0 0 "s1" ∅) _)).
  reflexivity.
Defined.

(** A state issued, consumed and issued again. *)
Lemma store_oauth_state_reissue_witness :
  store_oauth_state 20 20 "s1" (verify_oauth_state 10 "s1" (store_oauth_state 0 0 "s1" ∅)).2
    !! "s1" = Some {| timestamp := 20; used := false |}
  ∧ (verify_oauth_state 30 "s1"
       (store_oauth_state 20 20 "s1"
          (verify_oauth_state 10 "s1" (store_oauth_state 0 0 "s1" ∅)).2)).1 = true.
Proof.
  apply (store_oauth_state_reissue _ 20 20 30 "s1" {| timestamp := 0; used := true |}).
  - vm_compute. reflexivity.
  - lia.
Defined.

(** The admin's token refreshed at second 3000. *)
Lemma refresh_token_reissues_witness :
  ∃ new_token,
    AuthService.refresh_token (lib := RefJwt.lib) secret 2000 3000
      (Some {[ "token" := admin_token ]})
    = {| status_code := 200; json_body := {[ "token" := JStr new_token ]} |}
    ∧ ∀ t, t < 3000 + 28800 →
        ∃ new_claims,
          AuthService.verify_jwt_token (lib := RefJwt.lib) secret t new_token
          = Ok (Some new_claims)
          ∧ new_claims !! "sub" = Some (JStr "1002")
          ∧ new_claims !! "email" = Some (JStr "admin@example.com")
          ∧ new_claims !! "name" = Some (JStr "Root")
          ∧ new_claims !! "role" = Some (JStr "admin")
          ∧ new_claims !! "exp" = Some (JNum (3000 + 28800)).
Proof.
  destruct (refresh_token_reissues (lib := RefJwt.lib) secret 2000 3000
              {[ "token" := admin_token ]}) as (_ & _ & Hvalid & _).
  apply (Hvalid admin_token admin_claims).
  - vm_compute. reflexivity.
  - vm_compute. discriminate.
  - vm_compute. reflexivity.
  - reflexivity.
  - reflexivity.
  - reflexivity.
  - reflexivity.
Defined.

(** Each kind of invalid token has instances under the reference
    library: a string without dots, a made-up signature, a changed
    payload, a token of another key, and the admin's token after its
    expiry. *)
Example invalid_token_instances :
  invalid_token (lib := RefJwt.lib) (jws := RefJwt.jws) secret 2000 "not a token"
  ∧ invalid_token (lib := RefJwt.lib) (jws := RefJwt.jws) secret 2000
      forged_signature_token
  ∧ invalid_token (lib := RefJwt.lib) (jws := RefJwt.jws) secret 2000
      tampered_payload_token
  ∧ invalid_token (lib := RefJwt.lib) (jws := RefJwt.jws) secret 2000
      (RefJwt.encode_token admin_claims "other")
  ∧ invalid_token (lib := RefJwt.lib) (jws := RefJwt.jws) secret 29801 admin_token.
Proof.
  split; [apply malformed_token; vm_compute; lia|].
  split; [apply tampered_token; vm_compute; done|].
  split; [apply tampered_token; vm_compute; done|].
  split.
  - apply (wrong_key_token (lib := RefJwt.lib) (jws := RefJwt.jws) secret 2000
             admin_claims "other"); [exact I|vm_compute; discriminate].
  - apply (expired_token (lib := RefJwt.lib) (jws := RefJwt.jws) secret 29801
             admin_claims 29800); [reflexivity|by repeat split|lia].
Qed.

(** Under the reference library: strings that are no token, a made-up
    signature, a changed payload, a token of another key and an expired
    token all verify to [None]; the admin's token verifies before its
    expiry; and a token whose [sub] is a number never verifies. *)
Example verify_jwt_token_invalid_inputs :
  AuthService.verify_jwt_token (lib := RefJwt.lib) secret 2000 "not.a.token" = Ok None
  ∧ AuthService.verify_jwt_token (lib := RefJwt.lib) secret 2000 "not a token" = Ok None
  ∧ AuthService.verify_jwt_token (lib := RefJwt.lib) secret 2000 forged_signature_token
    = Ok None
  ∧ AuthService.verify_jwt_token (lib := RefJwt.lib) secret 2000 tampered_payload_token
    = Ok None
  ∧ AuthService.verify_jwt_token (lib := RefJwt.lib) secret 2000
      (RefJwt.encode_token admin_claims "other") = Ok None
  ∧ AuthService.verify_jwt_token (lib := RefJwt.lib) secret 29801 admin_token = Ok None
  ∧ AuthService.verify_jwt_token (lib := RefJwt.lib) secret 29799 admin_token
    = Ok (Some admin_claims)
  ∧ AuthService.verify_jwt_token (lib := RefJwt.lib) secret 2000
      (RefJwt.encode_token (<["sub" := JNum 1001]> admin_claims) secret) = Ok None.
Proof.
  repeat match goal with |- _ ∧ _ => split end; vm_compute; reflexivity.
Qed.

(** An admin route refuses a verified user who is no admin. *)
Example admin_route_refuses_user :
  ResourceService.protected (lib := RefJwt.lib) secret admin view_ok 2000
    (bearer (RefJwt.encode_token (<["exp" := JNum 29800]> alice) secret))
  = Ok (json_error 403 "Admin access required").
Proof. vm_compute. reflexivity. Qed.

(** C1 as stated fails: a login is started, a first callback with the
    state fails at the exchange and consumes the state, and a second
    callback with the same state and the same session is accepted and
    ends in a token. *)
Lemma oauth_callback_replay_accepted :
  let start := AuthService.initiate_login 0 0 "s1" ∅ ∅ in
  let first := AuthService.oauth_callback (lib := RefJwt.lib) secret roles frontend
                 idp_refusing 10 10
                 {| arg_state := Some "s1"; arg_code := Some "code1" |}
                 start.2 start.1 in
  let second := AuthService.oauth_callback (lib := RefJwt.lib) secret roles frontend
                  idp_accepting 20 20
                  {| arg_state := Some "s1"; arg_code := Some "code2" |}
                  (cb_session first) (cb_oauth_states first) in
  cb_response first = AuthService.login_error frontend "token_exchange_failed"
  ∧ cb_oauth_states first !! "s1" = Some {| timestamp := 0; used := true |}
  ∧ cb_response second ≠ AuthService.login_error frontend "state_mismatch"
  ∧ ∃ jwt_token, cb_response second = AuthService.auth_success frontend jwt_token.
Proof.
  cbv zeta. split; [vm_compute; reflexivity|].
  split; [vm_compute; reflexivity|].
  split; [vm_compute; discriminate|].
  eexists. vm_compute. reflexivity.
Qed.

(** C6 as stated fails: a callback without a code and with a state the
    store does not know answers [state_mismatch], not [no_code]. *)
Lemma oauth_callback_state_before_code :
  let result := AuthService.oauth_callback (lib := RefJwt.lib) secret roles frontend
                  idp_accepting 10 10
                  {| arg_state := Some "forged"; arg_code := None |}
                  ∅ (store_oauth_state 0 0 "s1" ∅) in
  cb_response result = AuthService.login_error frontend "state_mismatch"
  ∧ cb_response result ≠ AuthService.login_error frontend "no_code".
Proof.
  cbv zeta. split; [vm_compute; reflexivity|vm_compute; discriminate].
Qed.

(** C7 as stated fails: refreshing the admin's token in the second it
    was issued returns the very same token, which has no [iat] claim;
    an empty token is answered 400, not 401; and a token that verifies
    but has no [sub] claim is answered 500. *)
Lemma refresh_token_not_as_claimed :
  AuthService.create_jwt_token (lib := RefJwt.lib) secret 1000 admin_info
    = Ok admin_token
  ∧ AuthService.verify_jwt_token (lib := RefJwt.lib) secret 1000 admin_token
    = Ok (Some admin_claims)
  ∧ admin_claims !! "iat" = None
  ∧ AuthService.refresh_token (lib := RefJwt.lib) secret 1000 1000
      (Some {[ "token" := admin_token ]})
    = {| status_code := 200; json_body := {[ "token" := JStr admin_token ]} |}
  ∧ status_code (AuthService.refresh_token (lib := RefJwt.lib) secret 1000 1000
                   (Some {[ "token" := "" ]})) = 400
  ∧ AuthService.verify_jwt_token (lib := RefJwt.lib) secret 1000 bare_token
    = Ok (Some {[ "exp" := JNum 29800 ]})
  ∧ status_code (AuthService.refresh_token (lib := RefJwt.lib) secret 1000 1000
                   (Some {[ "token" := bare_token ]})) = 500.
Proof. repeat split; vm_compute; reflexivity. Qed.

(** * Further properties *)

Import Samples.

(** ** More on the state store *)

Section StateStoreMore.
Implicit Types (m : gmap string StateData) (s k : string) (t : Z) (d : StateData).

Lemma cleanup_lookup t m k :
  cleanup_expired_states t m !! k
  = match m !! k with
    | Some d => if decide (t - timestamp d ≤ 600) then Some d else None
    | None => None
    end.
Proof.
  apply option_eq. intros d. rewrite cleanup_lookup_Some.
  destruct (m !! k) as [d'|].
  - destruct (decide (t - timestamp d' ≤ 600)) as [Hle|Hgt].
    + split; [by intros [[= ->] _] | by intros [= ->]].
    + split; [intros [[= ->] Hle]; lia | done].
  - split; [by intros [? _] | done].
Qed.

(** X1.  Two sweeps in a row amount to one sweep at the later of the two
    clock readings; in particular a sweep repeated at the same reading
    changes nothing, and a sweep only ever removes records. *)
Theorem cleanup_expired_states_compose t t' m :
  cleanup_expired_states t' (cleanup_expired_states t m)
  = cleanup_expired_states (Z.max t t') m
  ∧ cleanup_expired_states t (cleanup_expired_states t m)
    = cleanup_expired_states t m
  ∧ cleanup_expired_states t m ⊆ m.
Proof.
  assert (∀ t1 t2, cleanup_expired_states t2 (cleanup_expired_states t1 m)
                   = cleanup_expired_states (Z.max t1 t2) m) as Hcomp.
  { intros t1 t2. apply map_eq. intros k. rewrite !cleanup_lookup.
    destruct (m !! k) as [d|]; [|done].
    repeat case_decide; try done; lia. }
  split; [apply Hcomp|]. split.
  - rewrite Hcomp. by rewrite Z.max_id.
  - apply map_subseteq_spec. intros k d Hk.
    by apply cleanup_lookup_Some in Hk as [? _].
Qed.

Lemma step_lookup_other m op k d :
  op_state op ≠ k → m !! k = Some d →
  step m op !! k = if decide (sweep_time op - timestamp d ≤ 600) then Some d else None.
Proof.
  intros Hne Hk. destruct op as [t1 t2 s|t s]; cbn [step sweep_time op_state] in *.
  - unfold store_oauth_state. rewrite lookup_insert_ne by done.
    by rewrite cleanup_lookup, Hk.
  - destruct (verify_oauth_state t s m).1 eqn:Hv.
    + apply verify_oauth_state_true in Hv as (d0 & Hs & Hu & Hle).
      rewrite (verify_oauth_state_store_true t s m d0) by done.
      rewrite lookup_insert_ne by done. by rewrite cleanup_lookup, Hk.
    + rewrite verify_oauth_state_store_false by done.
      by rewrite cleanup_lookup, Hk.
Qed.

(** X2.  An operation on one state leaves the record of every other
    state as it was when that record is at most 600 seconds old at the
    operation's sweep, and removes it when it is older. *)
Theorem step_frame m op k d :
  op_state op ≠ k → m !! k = Some d →
  (sweep_time op - timestamp d ≤ 600 → step m op !! k = Some d)
  ∧ (sweep_time op - timestamp d > 600 → step m op !! k = None).
Proof.
  intros Hne Hk. rewrite (step_lookup_other m op k d Hne Hk).
  split; intros Hage.
  - by rewrite decide_True.
  - rewrite decide_False; [done|lia].
Qed.

(** X3.  An issued state stays consumable: after any operations on
    other states whose sweeps run within 600 seconds of its issue, the
    state still verifies at any time within 600 seconds of its issue. *)
Theorem pending_state_survives m0 t1 t0 s ops t :
  Forall (λ op, op_state op ≠ s ∧ sweep_time op - t0 ≤ 600) ops →
  t - t0 ≤ 600 →
  (verify_oauth_state t s (run (store_oauth_state t1 t0 s m0) ops)).1 = true.
Proof.
  intros Hops Hle. apply verify_oauth_state_true.
  exists {| timestamp := t0; used := false |}. split; [|done].
  assert (store_oauth_state t1 t0 s m0 !! s = Some {| timestamp := t0; used := false |})
    as Hstart by (unfold store_oauth_state; apply lookup_insert_eq).
  revert Hstart. generalize (store_oauth_state t1 t0 s m0). unfold run.
  induction Hops as [|op ops [Hne Hsweep] _ IH]; intros m Hm; [done|].
  cbn [foldl]. apply IH.
  rewrite (step_lookup_other m op s _ Hne Hm). simpl. by rewrite decide_True.
Qed.

(** X4.  The store gains a state only by issuing it: verifying never adds
    a state, and issuing adds at most the issued one. *)
Theorem step_dom m op :
  dom (step m op) ⊆ dom m ∪ (match op with Issue _ _ s => {[ s ]} | Consume _ _ => ∅ end).
Proof.
  intros k. rewrite elem_of_union, !elem_of_dom.
  destruct op as [t1 t2 s|t s]; cbn [step].
  - unfold store_oauth_state. destruct (decide (s = k)) as [->|Hne].
    + intros _. right. by apply elem_of_singleton.
    + rewrite lookup_insert_ne by done. intros [d Hk].
      apply cleanup_lookup_Some in Hk as [Hk _]. left. by exists d.
  - intros [d Hk]. left.
    pose proof (verify_oauth_state_evolves t s m k) as [Hn|(d1 & d2 & H1 & _)].
    + congruence.
    + by exists d1.
Qed.

End StateStoreMore.

(** ** More on the callback *)

Ltac solve_elem_of_list :=
  repeat first [ apply list_elem_of_here | apply list_elem_of_further ].

Section CallbackMore.
Context {lib : JwtLib}.
Variable JWT_SECRET : string.
Variable USER_ROLES : PyDict.
Variable FRONTEND_URL : string.
Local Abbreviation login_error := (AuthService.login_error FRONTEND_URL).
Local Abbreviation auth_success := (AuthService.auth_success FRONTEND_URL).
Local Abbreviation get_user_role := (AuthService.get_user_role USER_ROLES).
Local Abbreviation exchange_code :=
  (AuthService.exchange_code JWT_SECRET USER_ROLES FRONTEND_URL).
Local Abbreviation oauth_callback :=
  (AuthService.oauth_callback JWT_SECRET USER_ROLES FRONTEND_URL).
Local Abbreviation check_state := AuthService.check_state.
Local Abbreviation issued_token :=
  (CallbackCases.issued_token JWT_SECRET USER_ROLES).
Local Abbreviation ExchangeCase :=
  (CallbackCases.ExchangeCase JWT_SECRET USER_ROLES FRONTEND_URL).

Lemma auth_success_inj t1 t2 : auth_success t1 = auth_success t2 → t1 = t2.
Proof.
  unfold AuthService.auth_success. intros [= H].
  by apply append_inj_r, append_inj_r in H.
Qed.

Lemma callback_create_jwt_token utcnow (idinfo : PyDict) sub :
  AuthService.create_jwt_token JWT_SECRET utcnow
    (<["sub" := sub]> (<["email" := dict_get idinfo "email"]>
     (<["name" := dict_get idinfo "name"]>
     (<["picture" := dict_get idinfo "picture"]>
     (<["role" := get_user_role (dict_get idinfo "email")]> ∅)))))
  = Ok (issued_token utcnow idinfo sub).
Proof.
  unfold CallbackCases.issued_token, AuthService.create_jwt_token.
  rewrite (create_jwt_payload_ok utcnow _ sub (dict_get idinfo "email")
             (dict_get idinfo "name") (get_user_role (dict_get idinfo "email")))
    by (by simplify_map_eq).
  unfold dict_get_default. by simplify_map_eq.
Qed.

Lemma exchange_code_cases idp utcnow code :
  ExchangeCase idp utcnow code (exchange_code idp utcnow code).
Proof.
  unfold AuthService.exchange_code.
  destruct (token_endpoint idp code) as [|status json] eqn:Hpost;
    [by constructor|].
  destruct (decide (status = 200)) as [->|Hstatus].
  2:{ rewrite bool_decide_false by done. cbn [negb].
      by eapply CallbackCases.exchange_refused. }
  rewrite bool_decide_true by done. cbn [negb].
  destruct json as [tokens|]; [|by constructor].
  destruct (tokens !! "id_token") as [idt|] eqn:Hidt;
    [|by eapply CallbackCases.exchange_no_id_token].
  destruct (verify_oauth2_token idp idt) as [idinfo| |] eqn:Hver;
    [|by eapply CallbackCases.exchange_invalid_assertion|by eapply CallbackCases.exchange_verifier_raises].
  assert (provider_accepts idp code idt idinfo) as Hacc by (by exists tokens).
  destruct (idinfo !! "sub") as [sub|] eqn:Hsub; [|by eapply CallbackCases.exchange_no_sub].
  rewrite callback_create_jwt_token. by eapply CallbackCases.exchange_ok.
Qed.

(** What the callback answers, case by case. *)
Lemma oauth_callback_cases idp now utcnow args session m :
  let result := oauth_callback idp now utcnow args session m in
  (¬ state_accepted now (arg_state args) (session !! "oauth_state") m
   ∧ cb_response result = login_error "state_mismatch"
   ∧ cb_session result = session ∧ cb_calls result = [])
  ∨ (state_accepted now (arg_state args) (session !! "oauth_state") m
     ∧ truthy_opt_str (arg_code args) = false
     ∧ cb_response result = login_error "no_code"
     ∧ cb_session result = session ∧ cb_calls result = [])
  ∨ (state_accepted now (arg_state args) (session !! "oauth_state") m
     ∧ ∃ code response clear calls,
         arg_code args = Some code ∧ code ≠ ""
         ∧ ExchangeCase idp utcnow code (response, clear, calls)
         ∧ cb_response result = response
         ∧ cb_session result = (if clear then delete "oauth_state" session else session)
         ∧ cb_calls result = calls).
Proof.
  intros result. unfold result, AuthService.oauth_callback.
  pose proof (check_state_true now (arg_state args) (session !! "oauth_state") m)
    as Hcheck.
  destruct (check_state _ _ _ _) as [state_valid m'].
  cbn [fst] in Hcheck. destruct state_valid; cbn [negb].
  2:{ left. split; [|done]. intros Hacc. apply Hcheck in Hacc. discriminate. }
  right. assert (state_accepted now (arg_state args) (session !! "oauth_state") m)
    as Hacc by (by apply Hcheck).
  destruct (arg_code args) as [code|] eqn:Hcode; [|by left].
  destruct (truthy_str code) eqn:Htruthy; cbn [negb]; [|by left].
  right. split; [done|].
  pose proof (exchange_code_cases idp utcnow code) as Hcase.
  destruct (exchange_code idp utcnow code) as [[response clear] calls].
  exists code, response, clear, calls.
  repeat split; try done. by apply truthy_str_true.
Qed.


Lemma exchange_code_ok idp utcnow code idt (idinfo : PyDict) sub :
  provider_accepts idp code idt idinfo → idinfo !! "sub" = Some sub →
  exchange_code idp utcnow code
  = (auth_success (issued_token utcnow idinfo sub), true,
     [PostTokenEndpoint code; VerifyIdToken idt]).
Proof.
  intros (tokens & Hpost & Hidt & Hver) Hsub. unfold AuthService.exchange_code.
  rewrite Hpost. rewrite bool_decide_true by done. cbn [negb].
  rewrite Hidt, Hver, Hsub. by rewrite callback_create_jwt_token.
Qed.

(** X7.  After [/auth/login] issued a state, a callback that presents
    this state within 600 seconds passes the state check whatever
    session it carries, and leaves the state marked used in the store. *)
Theorem login_then_callback idp t1 t0 now utcnow s code session0 session m :
  s ≠ "" → now - t0 ≤ 600 →
  let started := AuthService.initiate_login t1 t0 s session0 m in
  let result := oauth_callback idp now utcnow
                  {| arg_state := Some s; arg_code := code |} session started.1 in
  started.2 !! "oauth_state" = Some s
  ∧ cb_response result ≠ login_error "state_mismatch"
  ∧ cb_oauth_states result !! s = Some {| timestamp := t0; used := true |}.
Proof.
  intros Hs Hle started result.
  assert (started.1 !! s = Some {| timestamp := t0; used := false |}) as Hstored.
  { unfold started, AuthService.initiate_login, store_oauth_state.
    apply lookup_insert_eq. }
  split; [apply lookup_insert_eq|]. split.
  - unfold result. rewrite oauth_callback_state_mismatch. intros Hno. apply Hno.
    exists s. repeat split; [done|]. left.
    apply verify_oauth_state_true. by eexists.
  - unfold result. rewrite oauth_callback_store. cbn [arg_state].
    rewrite check_state_store by done.
    rewrite (verify_oauth_state_store_true now s _ _ Hstored) by done.
    apply lookup_insert_eq.
Qed.

(** X6.  [/auth/clear] empties the store and the session, so that a
    callback that follows with the cleared session is answered
    [state_mismatch] whatever its arguments. *)
Theorem clear_oauth_state_rejects_all idp now utcnow args session m :
  let cleared := AuthEndpoints.clear_oauth_state session m in
  cleared.1.2 = ∅ ∧ cleared.2 = ∅
  ∧ cb_response (oauth_callback idp now utcnow args cleared.2 cleared.1.2)
    = login_error "state_mismatch".
Proof.
  cbv zeta. cbn [AuthEndpoints.clear_oauth_state fst snd].
  split; [done|]. split; [done|].
  apply oauth_callback_state_mismatch.
  intros (s & _ & _ & [Hv|Hsess]).
  - apply verify_oauth_state_true in Hv as (d & Hk & _).
    by rewrite lookup_empty in Hk.
  - by rewrite lookup_empty in Hsess.
Qed.

(** X8.  [/auth/callback] answers with a token or with one of five
    reasons, and the login page of the frontend has a message for each
    of the five. *)
Theorem oauth_callback_outcomes idp now utcnow args session m :
  let response := cb_response (oauth_callback idp now utcnow args session m) in
  (∃ jwt_token, response = auth_success jwt_token)
  ∨ ∃ reason, response = login_error reason
              ∧ reason ∈ callback_reasons
              ∧ Frontend.error_message (Some reason) ≠ "".
Proof.
  cbv zeta.
  assert (∀ reason, reason ∈ callback_reasons →
            Frontend.error_message (Some reason) ≠ "") as Hmsg.
  { intros reason Hin. unfold callback_reasons in Hin.
    repeat (apply elem_of_cons in Hin as [->|Hin]; [by vm_compute|]).
    by apply elem_of_nil in Hin. }
  assert (∀ reason, reason ∈ callback_reasons →
            ∃ r, login_error reason = login_error r ∧ r ∈ callback_reasons
                 ∧ Frontend.error_message (Some r) ≠ "") as Hreason.
  { intros reason Hin. exists reason. auto. }
  destruct (oauth_callback_cases idp now utcnow args session m)
    as [(_ & -> & _)|[(_ & _ & -> & _)|(_ & code & response & clear & calls & _ & _
                                         & Hcase & -> & _)]].
  - right. apply Hreason. unfold callback_reasons; solve_elem_of_list.
  - right. apply Hreason. unfold callback_reasons; solve_elem_of_list.
  - inversion Hcase; subst; try (right; apply Hreason; unfold callback_reasons;
                                 solve_elem_of_list).
    left. by eexists.
Qed.

(** X9.  A token is issued only after every check: the state was
    accepted, a code was present, the provider exchanged it and its
    assertion verified with a [sub]; the token is the one made of that
    assertion, and exactly two calls went out. *)
Theorem oauth_callback_token_only_after_checks idp now utcnow args session m jwt_token :
  cb_response (oauth_callback idp now utcnow args session m) = auth_success jwt_token →
  state_accepted now (arg_state args) (session !! "oauth_state") m
  ∧ ∃ code idt idinfo sub,
      arg_code args = Some code ∧ code ≠ ""
      ∧ provider_accepts idp code idt idinfo
      ∧ idinfo !! "sub" = Some sub
      ∧ jwt_token = issued_token utcnow idinfo sub
      ∧ cb_calls (oauth_callback idp now utcnow args session m)
        = [PostTokenEndpoint code; VerifyIdToken idt].
Proof.
  intros Hresp.
  destruct (oauth_callback_cases idp now utcnow args session m)
    as [(_ & Hr & _)|[(_ & _ & Hr & _)|(Hacc & code & response & clear & calls
                                          & Hcode & Hne & Hcase & Hr & _ & Hcalls)]].
  - rewrite Hr in Hresp. symmetry in Hresp. by apply auth_success_not_error in Hresp.
  - rewrite Hr in Hresp. symmetry in Hresp. by apply auth_success_not_error in Hresp.
  - split; [done|]. rewrite Hr in Hresp. rewrite Hcalls. revert Hresp.
    inversion Hcase; subst; intros Hresp;
      try (symmetry in Hresp; by apply auth_success_not_error in Hresp).
    apply auth_success_inj in Hresp. subst.
    by eexists code, _, _, _.
Qed.

(** X10.  When the state is accepted and the provider accepts the code
    and asserts a [sub] that is a string, the callback issues a token
    that verifies until eight hours later with the asserted [sub] and
    [email], and with the role [USER_ROLES] gives that email address,
    ['user'] when it gives none. *)
Theorem oauth_callback_issues_role `{!JwtLaws lib} idp now utcnow args session m
    code idt (idinfo : PyDict) (sub : string) :
  state_accepted now (arg_state args) (session !! "oauth_state") m →
  arg_code args = Some code → code ≠ "" →
  provider_accepts idp code idt idinfo → idinfo !! "sub" = Some (JStr sub) →
  ∃ jwt_token,
    cb_response (oauth_callback idp now utcnow args session m) = auth_success jwt_token
    ∧ ∀ t, t < utcnow + 28800 →
        ∃ claims,
          AuthService.verify_jwt_token JWT_SECRET t jwt_token = Ok (Some claims)
          ∧ claims !! "sub" = Some (JStr sub)
          ∧ claims !! "email" = Some (default JNull (idinfo !! "email"))
          ∧ claims !! "role"
            = Some (match idinfo !! "email" with
                    | Some (JStr email) => default (JStr "user") (USER_ROLES !! email)
                    | _ => JStr "user"
                    end).
Proof.
  intros Hacc Hcode Hne Hprov Hsub.
  exists (issued_token utcnow idinfo (JStr sub)). split.
  - unfold AuthService.oauth_callback.
    apply check_state_true in Hacc.
    destruct (check_state _ _ _ _) as [state_valid m']. cbn [fst] in Hacc. subst.
    cbn [negb]. rewrite Hcode. apply truthy_str_true in Hne. rewrite Hne. cbn [negb].
    by rewrite (exchange_code_ok idp utcnow code idt idinfo (JStr sub)).
  - intros t Ht. eexists. split.
    + apply verify_jwt_token_decoded. unfold CallbackCases.issued_token.
      by apply jwt_decode_issued.
    + split; [by simplify_map_eq|]. split; [by simplify_map_eq|].
      rewrite lookup_insert_ne, lookup_insert_ne, lookup_insert_ne by done.
      rewrite lookup_insert_eq. unfold AuthService.get_user_role, dict_get.
      by destruct (idinfo !! "email") as [[]|].
Qed.

(** X11.  The callback removes [oauth_state] from the session exactly
    when it issues a token; on every rejection the session is left as
    it was. *)
Theorem oauth_callback_session idp now utcnow args session m :
  let result := oauth_callback idp now utcnow args session m in
  ((∃ jwt_token, cb_response result = auth_success jwt_token)
   ∧ cb_session result = delete "oauth_state" session)
  ∨ ((∀ jwt_token, cb_response result ≠ auth_success jwt_token)
     ∧ cb_session result = session).
Proof.
  cbv zeta.
  assert (∀ reason jwt_token, login_error reason ≠ auth_success jwt_token) as Hne.
  { intros reason jwt_token H. symmetry in H. by apply auth_success_not_error in H. }
  destruct (oauth_callback_cases idp now utcnow args session m)
    as [(_ & -> & -> & _)|[(_ & _ & -> & -> & _)|(_ & code & response & clear & calls
                                         & _ & _ & Hcase & -> & -> & _)]].
  - right. split; [intros; apply Hne|done].
  - right. split; [intros; apply Hne|done].
  - inversion Hcase; subst; try (right; split; [intros; apply Hne|done]).
    left. split; [by eexists|done].
Qed.

(** X12.  The callback calls nothing outside when the state is rejected;
    otherwise it posts the request's code to the token endpoint at most
    once and verifies an assertion at most once, and only the assertion
    of a 200 answer. *)
Theorem oauth_callback_calls idp now utcnow args session m :
  let result := oauth_callback idp now utcnow args session m in
  (¬ state_accepted now (arg_state args) (session !! "oauth_state") m →
     cb_calls result = [])
  ∧ (cb_calls result = []
     ∨ ∃ code, arg_code args = Some code ∧ code ≠ ""
         ∧ (cb_calls result = [PostTokenEndpoint code]
            ∨ ∃ tokens idt,
                token_endpoint idp code = PostResponse 200 (Some tokens)
                ∧ tokens !! "id_token" = Some idt
                ∧ cb_calls result = [PostTokenEndpoint code; VerifyIdToken idt])).
Proof.
  cbv zeta.
  destruct (oauth_callback_cases idp now utcnow args session m)
    as [(Hno & _ & _ & ->)|[(Hacc & _ & _ & _ & ->)|(Hacc & code & response & clear
                                         & calls & Hcode & Hne & Hcase & _ & _ & ->)]].
  - split; [done|by left].
  - split; [done|by left].
  - split; [done|]. right. exists code. split; [done|]. split; [done|].
    inversion Hcase; subst; try (by left); right;
      try match goal with
          | H : provider_accepts _ _ _ _ |- _ => destruct H as (? & ? & ? & ?)
          end;
      by eexists _, _.
Qed.

(** X13.  Whatever its outcome, the callback never adds a state to the
    store, never changes a timestamp and never makes a used state
    unused. *)
Theorem oauth_callback_store_evolves idp now utcnow args session m k :
  evolves (m !! k)
          (cb_oauth_states (oauth_callback idp now utcnow args session m) !! k).
Proof.
  rewrite oauth_callback_store. unfold AuthService.check_state.
  destruct (arg_state args) as [s|]; [|apply evolves_refl].
  destruct (truthy_str s); [|apply evolves_refl].
  pose proof (verify_oauth_state_evolves now s m k) as Hev.
  destruct (verify_oauth_state now s m) as [[] m']; cbn [snd] in *; [done|].
  by destruct (decide _).
Qed.

End CallbackMore.

(** ** More endpoints and guards *)

(** X5.  [/auth/debug] sweeps the store and reports exactly the states
    that are at most 600 seconds old, each once, with a count equal to
    the length of the list; without a state in the session the reported
    session state is the string ["None"]. *)
Theorem debug_oauth_lists_pending now session (m : gmap string StateData) :
  let out := AuthEndpoints.debug_oauth now session m in
  stored_states_count out.1 = length (stored_states out.1)
  ∧ NoDup (stored_states out.1)
  ∧ (∀ s, s ∈ stored_states out.1
          ↔ ∃ d, m !! s = Some d ∧ now - timestamp d ≤ 600)
  ∧ out.2 = cleanup_expired_states now m
  ∧ (session_has_state out.1 = false → session_state out.1 = "None").
Proof.
  cbv zeta. unfold AuthEndpoints.debug_oauth. cbn [fst snd stored_states_count
    stored_states session_has_state session_state].
  split; [by rewrite length_fmap, length_map_to_list|].
  split; [apply NoDup_fst_map_to_list|].
  split; [|split; [done|]].
  - intros s. rewrite list_elem_of_fmap. split.
    + intros [[s' d] [-> Hin]]. apply elem_of_map_to_list in Hin.
      apply cleanup_lookup_Some in Hin. by exists d.
    + intros (d & Hk & Hle). exists (s, d). split; [done|].
      apply elem_of_map_to_list. by apply cleanup_lookup_Some.
  - intros Hno. apply bool_decide_eq_false in Hno.
    destruct (session !! "oauth_state") as [s|]; [|done].
    exfalso. apply Hno. by eexists.
Qed.

Section VerifyEndpoint.
Context {lib : JwtLib}.
Variable JWT_SECRET : string.
Local Abbreviation create_jwt_token := (AuthService.create_jwt_token JWT_SECRET).
Local Abbreviation verify_jwt_token := (AuthService.verify_jwt_token JWT_SECRET).
Local Abbreviation verify_token := (AuthEndpoints.verify_token JWT_SECRET).

Lemma verify_token_valid now (data : gmap string string) token (claims : PyDict)
    sub email name role :
  data !! "token" = Some token → token ≠ "" →
  verify_jwt_token now token = Ok (Some claims) →
  claims !! "sub" = Some sub → claims !! "email" = Some email →
  claims !! "name" = Some name → claims !! "role" = Some role →
  verify_token now (Some data)
  = {| reply_status := 200;
       reply_body :=
         JDict [("valid", JAtom (JBool true));
                ("user",
                 JDict [("sub", JAtom sub); ("email", JAtom email);
                        ("name", JAtom name); ("role", JAtom role);
                        ("picture",
                         JAtom (default (JStr "") (claims !! "picture")))])] |}.
Proof.
  intros Hd Hne Hv Hs He Hn Hr. unfold AuthEndpoints.verify_token.
  rewrite Hd. cbn [truthy_opt_str default from_option id].
  apply truthy_str_true in Hne. rewrite Hne. cbn [negb]. rewrite Hv.
  rewrite truthy_opt_dict_Some
    by (intros Hempty; rewrite Hempty in Hs; by rewrite lookup_empty in Hs).
  cbn [negb default from_option id]. unfold getitem, dict_get_default.
  by rewrite Hs, He, Hn, Hr.
Qed.

Lemma verify_token_invalid now (data : gmap string string) token payload :
  data !! "token" = Some token → token ≠ "" →
  verify_jwt_token now token = Ok payload → truthy_opt_dict payload = false →
  verify_token now (Some data) = error_reply 401 "Invalid or expired token".
Proof.
  intros Hd Hne Hv Hp. unfold AuthEndpoints.verify_token.
  rewrite Hd. cbn [truthy_opt_str default from_option id].
  apply truthy_str_true in Hne. rewrite Hne. cbn [negb].
  by rewrite Hv, Hp.
Qed.

(** X14.  [/auth/verify] on a token [create_jwt_token] made of an
    identity whose [sub] is a string answers 200 with [valid] and the
    identity's fields before eight hours have passed, and 401
    afterwards. *)
Theorem verify_token_issued `{!JwtLaws lib} issued now (user_info : PyDict)
    (sub : string) email name role token :
  user_info !! "sub" = Some (JStr sub) → user_info !! "email" = Some email →
  user_info !! "name" = Some name → user_info !! "role" = Some role →
  create_jwt_token issued user_info = Ok token → token ≠ "" →
  (now < issued + 28800 →
     verify_token now (Some {[ "token" := token ]})
     = {| reply_status := 200;
          reply_body :=
            JDict [("valid", JAtom (JBool true));
                   ("user",
                    JDict [("sub", JAtom (JStr sub)); ("email", JAtom email);
                           ("name", JAtom name); ("role", JAtom role);
                           ("picture",
                            JAtom (default (JStr "") (user_info !! "picture")))])] |})
  ∧ (issued + 28800 < now →
     verify_token now (Some {[ "token" := token ]})
     = error_reply 401 "Invalid or expired token").
Proof.
  intros Hs He Hn Hr Hc Hne.
  unfold AuthService.create_jwt_token in Hc.
  rewrite (create_jwt_payload_ok issued user_info (JStr sub) email name role) in Hc
    by done.
  injection Hc as <-.
  assert (now < issued + 28800 → jwt_decode (jwt_encode _ JWT_SECRET) JWT_SECRET now = _)
    as Hfresh by apply (jwt_decode_issued JWT_SECRET issued now sub email name role
                          (dict_get_default user_info "picture" (JStr ""))).
  set (payload := <["sub":=JStr sub]> _) in *.
  assert (payload !! "exp" = Some (JNum (issued + 28800))) as Hexp
    by (unfold payload; by simplify_map_eq).
  assert (no_other_registered_claims payload) as Hreg
    by (unfold payload; by repeat split; simplify_map_eq).
  unfold AuthEndpoints.verify_token. rewrite lookup_singleton_eq.
  cbn [truthy_opt_str default from_option id].
  apply truthy_str_true in Hne. rewrite Hne. cbn [negb].
  split; intros Ht.
  - rewrite (verify_jwt_token_decoded JWT_SECRET now _ _ (Hfresh Ht)).
    rewrite truthy_opt_dict_Some
      by (intros Hempty; rewrite Hempty in Hexp; by rewrite lookup_empty in Hexp).
    cbn [negb default from_option id]. unfold getitem, dict_get_default, payload.
    by simplify_map_eq.
  - unfold AuthService.verify_jwt_token.
    by rewrite (jwt_decode_encode_expired payload JWT_SECRET now _ Hexp Hreg Ht).
Qed.

End VerifyEndpoint.

Section GuardsMore.
Context {lib : JwtLib}.
Variable JWT_SECRET : string.
Local Abbreviation login_required := (ResourceService.login_required JWT_SECRET).
Local Abbreviation protected := (ResourceService.protected JWT_SECRET).

Lemma split_cons_nonempty sep s : split sep s ≠ [].
Proof.
  destruct s as [|c s]; simpl; [done|].
  destruct (decide (c = sep)); [done|]. by destruct (split sep s).
Qed.

Lemma prefix_cons c p d s :
  String.prefix (String c p) (String d s) = true ↔ c = d ∧ String.prefix p s = true.
Proof.
  cbn [String.prefix]. destruct (Ascii.ascii_dec c d) as [->|Hne].
  - split; [by intros ?|by intros [_ ?]].
  - split; [done|by intros [? _]].
Qed.

Lemma startswith_inv p s : startswith p s = true → ∃ rest, s = p +:+ rest.
Proof.
  unfold startswith. revert s. induction p as [|c p IH]; intros s Hpre.
  - by exists s.
  - destruct s as [|d s]; [done|].
    apply prefix_cons in Hpre as [-> Hpre].
    destruct (IH s Hpre) as [rest ->]. by exists rest.
Qed.

Lemma startswith_app p rest : startswith p (p +:+ rest) = true.
Proof.
  unfold startswith. induction p as [|c p IH]; [by destruct rest|].
  by apply prefix_cons.
Qed.

(** A header that starts with ["Bearer "] splits into at least two
    pieces. *)
Lemma split_bearer auth_header :
  startswith "Bearer " auth_header = true →
  ∃ token, split " " auth_header !! 1%nat = Some token.
Proof.
  intros Hpre. apply startswith_inv in Hpre as [rest ->].
  change ("Bearer " +:+ rest) with
    (String "B" (String "e" (String "a" (String "r" (String "e" (String "r"
       (String " " rest))))))).
  cbn [split]. repeat (rewrite decide_False by done).
  rewrite decide_True by done.
  pose proof (split_cons_nonempty " " rest) as Hne.
  destruct (split " " rest) as [|piece pieces]; [done|].
  by exists piece.
Qed.

(** X15.  [login_required] answers 401 without running the view when the
    [Authorization] header is missing or does not start with
    ["Bearer "]; a header with that prefix always yields a token to
    check (the index never fails), and a token that does not verify is
    answered 401. *)
Theorem login_required_rejects (f : View) now request :
  ((∀ auth_header, authorization request = Some auth_header →
                   startswith "Bearer " auth_header = false) →
     login_required f now request = Ok (json_error 401 "Missing or invalid token"))
  ∧ (∀ auth_header,
       authorization request = Some auth_header →
       startswith "Bearer " auth_header = true →
       ∃ token,
         split " " auth_header !! 1%nat = Some token
         ∧ (∀ payload,
              ResourceService.verify_jwt_token JWT_SECRET now token = Ok payload →
              truthy_opt_dict payload = false →
              login_required f now request
              = Ok (json_error 401 "Invalid or expired token"))).
Proof.
  split.
  - intros Hbad. unfold ResourceService.login_required.
    destruct (authorization request) as [auth_header|]; [|done].
    rewrite (Hbad auth_header eq_refl). cbn [negb]. by rewrite orb_true_r.
  - intros auth_header Hh Hpre.
    destruct (split_bearer auth_header Hpre) as [token Htok].
    exists token. split; [done|]. intros payload Hv Hfalsy.
    unfold ResourceService.login_required.
    rewrite Hh, Hpre, (startswith_truthy "Bearer " auth_header) by done.
    cbn [negb orb]. rewrite Htok. cbn [mbind PyResult_bind]. rewrite Hv.
    cbn [mbind PyResult_bind]. by rewrite Hfalsy.
Qed.

Lemma resource_verify_jwt_token_eq now token :
  ResourceService.verify_jwt_token JWT_SECRET now token
  = AuthService.verify_jwt_token JWT_SECRET now token.
Proof. reflexivity. Qed.

(** X16.  A token the authentication service made of an identity whose
    [sub] is a string, presented to the resource service under the same
    secret: before eight hours have passed the view runs with the
    token's claims, except that an admin route answers 403 to a role
    other than ["admin"]; afterwards every route answers 401, whatever
    the role. *)
Theorem issued_token_at_resource_service `{!JwtLaws lib} (f : View) issued now
    (user_info : PyDict) (sub : string) email name role token required_role :
  user_info !! "sub" = Some (JStr sub) → user_info !! "email" = Some email →
  user_info !! "name" = Some name → user_info !! "role" = Some role →
  AuthService.create_jwt_token JWT_SECRET issued user_info = Ok token →
  split " " ("Bearer " +:+ token) !! 1%nat = Some token →
  let request := {| authorization := Some ("Bearer " +:+ token); user := None |} in
  (now < issued + 28800 →
     ∃ claims,
       claims !! "sub" = Some (JStr sub) ∧ claims !! "email" = Some email
       ∧ claims !! "role" = Some role
       ∧ protected required_role f now request
         = if bool_decide (required_role = admin ∧ role ≠ JStr "admin")
           then Ok (json_error 403 "Admin access required")
           else f (set_user claims request))
  ∧ (issued + 28800 < now →
     protected required_role f now request
     = Ok (json_error 401 "Invalid or expired token")).
Proof.
  intros Hs He Hn Hr Hc Hsplit request.
  unfold AuthService.create_jwt_token in Hc.
  rewrite (create_jwt_payload_ok issued user_info (JStr sub) email name role) in Hc
    by done.
  injection Hc as <-.
  assert (now < issued + 28800 → jwt_decode (jwt_encode _ JWT_SECRET) JWT_SECRET now = _)
    as Hfresh by apply (jwt_decode_issued JWT_SECRET issued now sub email name role
                          (dict_get_default user_info "picture" (JStr ""))).
  set (claims := <["sub":=JStr sub]> _) in *.
  assert (claims ≠ ∅) as Hnonempty.
  { intros Hempty. apply (f_equal (lookup "sub")) in Hempty.
    unfold claims in Hempty. by simplify_map_eq. }
  assert (startswith "Bearer " ("Bearer " +:+ jwt_encode claims JWT_SECRET) = true)
    as Hpre.
  { apply startswith_app. }
  split; intros Ht.
  - assert (ResourceService.verify_jwt_token JWT_SECRET now
              (jwt_encode claims JWT_SECRET) = Ok (Some claims)) as Hv.
    { rewrite resource_verify_jwt_token_eq. apply verify_jwt_token_decoded.
      exact (Hfresh Ht). }
    exists claims. split; [unfold claims; by simplify_map_eq|].
    split; [unfold claims; by simplify_map_eq|].
    split; [unfold claims; by simplify_map_eq|].
    unfold ResourceService.protected. destruct required_role.
    + rewrite bool_decide_false by (by intros [? _]).
      exact (login_required_verified JWT_SECRET f now request _ _ claims
               eq_refl Hpre Hsplit Hv Hnonempty).
    + rewrite (login_required_verified JWT_SECRET _ now request _ _ claims
                 eq_refl Hpre Hsplit Hv Hnonempty).
      rewrite (admin_required_spec f _ claims) by done.
      assert (claims !! "role" = Some role) as ->
        by (unfold claims; by simplify_map_eq).
      destruct (decide (role = JStr "admin")) as [->|Hrole].
      * rewrite bool_decide_true by done.
        by rewrite bool_decide_false by (by intros [_ ?]).
      * rewrite bool_decide_false by congruence.
        by rewrite bool_decide_true.
  - assert (ResourceService.verify_jwt_token JWT_SECRET now
              (jwt_encode claims JWT_SECRET) = Ok None) as Hv.
    { unfold ResourceService.verify_jwt_token.
      erewrite jwt_decode_encode_expired; [done| | |exact Ht]; unfold claims.
      - by simplify_map_eq.
      - by repeat split; simplify_map_eq. }
    assert (∀ g, login_required g now request
                 = Ok (json_error 401 "Invalid or expired token")) as Hrej.
    { intros g. unfold ResourceService.login_required, request.
      cbn [authorization]. rewrite Hpre.
      rewrite (startswith_truthy "Bearer " _) by done.
      cbn [negb orb]. rewrite Hsplit. cbn [mbind PyResult_bind]. by rewrite Hv. }
    unfold ResourceService.protected. destruct required_role; apply Hrej.
Qed.

End GuardsMore.

(** ** The views and the frontend *)

Section Views.
Import ResourceViews.

Lemma role_is_admin (claims : PyDict) :
  bool_decide (dict_get_default claims "role" (JStr "user") = JStr "admin")
  = bool_decide (claims !! "role" = Some (JStr "admin")).
Proof.
  unfold dict_get_default. apply bool_decide_ext.
  destruct (claims !! "role") as [v|]; simpl; [|done].
  split; [by intros ->|by intros [= ->]].
Qed.

(** X17.  [/resources/all] lists three resources to a user and six to an
    admin, each stamped with the caller's email; a resource marked
    sensitive is listed only to an admin, with access level ["admin"],
    and every other resource has access level ["user"]. *)
Theorem get_all_accessible_resources_by_role utcnow request (claims : PyDict) email :
  user request = Some claims → claims !! "email" = Some email →
  ∃ items message,
    get_all_accessible_resources utcnow request
    = Ok {| reply_status := 200;
            reply_body := format_api_response utcnow (JList items) message |}
    ∧ length items
      = (if bool_decide (claims !! "role" = Some (JStr "admin")) then 6 else 3)%nat
    ∧ ∀ item, item ∈ items →
        ∃ fields,
          item = JDict fields
          ∧ assoc_get "accessible_by" fields = Some (JAtom email)
          ∧ (assoc_get "sensitive" fields ≠ None →
               claims !! "role" = Some (JStr "admin")
               ∧ assoc_get "access_level" fields = Some (JAtom (JStr "admin")))
          ∧ (assoc_get "sensitive" fields = None →
               assoc_get "access_level" fields = Some (JAtom (JStr "user"))).
Proof.
  intros Hu He. unfold get_all_accessible_resources, request_user.
  rewrite Hu. cbn [mbind PyResult_bind]. rewrite role_is_admin.
  unfold getitem. rewrite He.
  destruct (bool_decide (claims !! "role" = Some (JStr "admin"))) eqn:Hrole.
  - apply bool_decide_eq_true in Hrole.
    eexists _, _. split; [cbv; reflexivity|]. split; [reflexivity|].
    intros item Hin.
    repeat (apply elem_of_cons in Hin as [->|Hin];
            [eexists; split; [reflexivity|]; by repeat split|]).
    by apply elem_of_nil in Hin.
  - eexists _, _. split; [cbv; reflexivity|]. split; [reflexivity|].
    intros item Hin.
    repeat (apply elem_of_cons in Hin as [->|Hin];
            [eexists; split; [reflexivity|]; by repeat split|]).
    by apply elem_of_nil in Hin.
Qed.


(** X18.  The views read [request.user['email']] unguarded: for verified
    claims without an [email] the three resource lists raise
    [KeyError], and so does the profile. *)
Theorem views_need_email utcnow last_accessed request (claims : PyDict) :
  user request = Some claims → claims !! "email" = None →
  get_user_resources utcnow request = Raise (KeyError "email")
  ∧ get_admin_resources utcnow request = Raise (KeyError "email")
  ∧ get_all_accessible_resources utcnow request = Raise (KeyError "email")
  ∧ ∃ key, get_user_profile last_accessed utcnow request = Raise (KeyError key).
Proof.
  intros Hu He.
  unfold get_user_resources, get_admin_resources, get_all_accessible_resources,
    get_user_profile, request_user, getitem.
  rewrite Hu. cbn [mbind PyResult_bind]. rewrite He.
  split; [done|]. split; [done|]. split.
  - by destruct (bool_decide _).
  - destruct (claims !! "sub"); by eexists.
Qed.

(** X19.  The profile agrees with the listing: the total it reports is
    the number of resources [/resources/all] lists for the same claims,
    both admin permissions hold exactly for the role ["admin"], and a
    missing role is reported as ["user"]. *)
Theorem profile_agrees_with_listing last_accessed utcnow request (claims : PyDict)
    sub email name :
  user request = Some claims →
  claims !! "sub" = Some sub → claims !! "email" = Some email →
  claims !! "name" = Some name →
  ∃ user_info stats permissions items message,
    get_user_profile last_accessed utcnow request
    = Ok {| reply_status := 200;
            reply_body :=
              format_api_response utcnow
                (JDict [("user_info", JDict user_info); ("stats", JDict stats);
                        ("permissions", JDict permissions)])
                "Profile retrieved successfully" |}
    ∧ get_all_accessible_resources utcnow request
      = Ok {| reply_status := 200;
              reply_body := format_api_response utcnow (JList items) message |}
    ∧ assoc_get "total_accessible_resources" stats
      = Some (JAtom (JNum (Z.of_nat (length items))))
    ∧ assoc_get "can_access_admin_resources" permissions
      = Some (JAtom (JBool (bool_decide (claims !! "role" = Some (JStr "admin")))))
    ∧ assoc_get "can_manage_users" permissions
      = Some (JAtom (JBool (bool_decide (claims !! "role" = Some (JStr "admin")))))
    ∧ assoc_get "role" user_info
      = Some (JAtom (default (JStr "user") (claims !! "role"))).
Proof.
  intros Hu Hs He Hn.
  unfold get_user_profile, get_all_accessible_resources, request_user, getitem.
  rewrite Hu. cbn [mbind PyResult_bind]. rewrite Hs, He, Hn, !role_is_admin.
  cbn [mbind PyResult_bind].
  destruct (bool_decide (claims !! "role" = Some (JStr "admin")));
    eexists _, _, _, _, _; (split; [reflexivity|]); (split; [cbv; reflexivity|]);
    by repeat split.
Qed.

End Views.

Section FrontendFacts.
Import Frontend.

Lemma session_get_Some (session : gmap string Json) key v :
  session !! key = Some v → session_get session key = v.
Proof. unfold session_get. by intros ->. Qed.

Lemma call_resource_service_ok svc endpoint token body :
  truthy token = true →
  resource_get svc endpoint (Some token) = HttpResponse 200 (Some body) →
  call_resource_service svc endpoint "GET" token = body.
Proof.
  intros Htok Hget. unfold call_resource_service. rewrite Htok.
  rewrite bool_decide_true by done. by rewrite Hget.
Qed.

(** X20.  With a token in the session and a resource service that answers
    200, the frontend relays the body with status 200 on the user
    routes and with status 503 on the three admin routes, whose status
    is 503 whatever the backend answers. *)
Theorem proxies_status svc (session : gmap string Json) token :
  session !! "token" = Some token → truthy token = true →
  (∀ body, resource_get svc "/resources/user" (Some token) = HttpResponse 200 (Some body) →
           truthy body = true → get_user_resources svc session = jsonify body 200)
  ∧ (∀ body, resource_get svc "/user/profile" (Some token) = HttpResponse 200 (Some body) →
             truthy body = true → get_user_profile svc session = jsonify body 200)
  ∧ (∀ body, resource_get svc "/resources/admin" (Some token) = HttpResponse 200 (Some body) →
             truthy body = true → get_admin_resources svc session = jsonify body 503)
  ∧ (∀ body, resource_get svc "/admin/stats" (Some token) = HttpResponse 200 (Some body) →
             truthy body = true → get_admin_stats svc session = jsonify body 503)
  ∧ (∀ body, resource_get svc "/admin/users" (Some token) = HttpResponse 200 (Some body) →
             truthy body = true → get_admin_users svc session = jsonify body 503)
  ∧ page_status (get_admin_resources svc session) = Some 503
  ∧ page_status (get_admin_stats svc session) = Some 503
  ∧ page_status (get_admin_users svc session) = Some 503.
Proof.
  intros Hsess Htok.
  unfold get_user_resources, get_user_profile, get_admin_resources,
    get_admin_stats, get_admin_users.
  rewrite (session_get_Some session "token" token Hsess), Htok. cbn [negb].
  repeat split; try done;
    intros body Hget Hbody;
    rewrite (call_resource_service_ok svc _ token body Htok Hget);
    by rewrite Hbody.
Qed.

(** X21.  Without a token in the session the five API routes of the
    frontend answer 401, whatever the backends would answer. *)
Theorem proxies_need_token svc (session : gmap string Json) :
  truthy (session_get session "token") = false →
  get_user_resources svc session = not_authenticated
  ∧ get_user_profile svc session = not_authenticated
  ∧ get_admin_resources svc session = not_authenticated
  ∧ get_admin_stats svc session = not_authenticated
  ∧ get_admin_users svc session = not_authenticated
  ∧ page_status not_authenticated = Some 401.
Proof.
  intros Hno.
  unfold get_user_resources, get_user_profile, get_admin_resources,
    get_admin_stats, get_admin_users.
  by rewrite Hno.
Qed.

Lemma result_valid_true svc token :
  result_valid (verify_with_auth_service svc token) = Ok true ↔ vouched svc token.
Proof.
  unfold verify_with_auth_service, call_auth_service, vouched.
  cbn [truthy None_ truthy_atom].
  rewrite bool_decide_false by done. rewrite bool_decide_true by done.
  unfold response_json.
  destruct (auth_post svc "/auth/verify" _ None) as [|status json] eqn:Hpost.
  { split; [done|]. by intros (? & ? & ? & ? & _). }
  destruct (Z.ltb_spec status 400) as [Hlt|Hge].
  2:{ split; [done|]. intros (? & ? & ? & [= <- _] & ? & _). lia. }
  destruct json as [body|].
  2:{ split; [done|]. by intros (? & ? & ? & ? & _). }
  unfold result_valid. destruct body as [v|items|fields].
  - split; [by destruct (truthy _)|]. by intros (? & ? & ? & ? & _).
  - split; [by destruct (truthy _)|]. by intros (? & ? & ? & ? & _).
  - cbn [json_get]. destruct (truthy (JDict fields)) eqn:Htruthy;
      cbn [mbind PyResult_bind].
    + split.
      * intros [= Hvalid].
        destruct (assoc_get "valid" fields) as [valid|] eqn:Hget; [|done].
        by exists status, fields, valid.
      * intros (? & ? & valid & [= <- <-] & _ & Hget & Hvalid).
        rewrite Hget. cbn [default from_option id]. by rewrite Hvalid.
    + split; [done|]. intros (? & ? & valid & [= _ <-] & _ & Hget & _).
      by destruct fields.
Qed.

(** X22.  The dashboard is rendered only when the authentication service
    vouches for the session's token, with the session's user and the
    session unchanged; when the service does not vouch, the session is
    emptied and the login page is asked for with [session_expired]. *)
Theorem dashboard_gate svc (session : gmap string Json) page session' :
  dashboard svc session = Ok (page, session') →
  (∀ template keyword value,
     page = render_template template keyword value →
     vouched svc (session_get session "token")
     ∧ value = session_get session "user" ∧ truthy value = true
     ∧ session' = session)
  ∧ (truthy (session_get session "token") = true →
     truthy (session_get session "user") = true →
     ¬ vouched svc (session_get session "token") →
     page = redirect_to "login" (Some "session_expired") ∧ session' = ∅)
  ∧ (session' = session ∨ session' = ∅).
Proof.
  unfold dashboard. intros Hdash.
  destruct (truthy (session_get session "token")) eqn:Htok; cbn [negb orb] in Hdash.
  2:{ injection Hdash as <- <-. repeat split; try done. by left. }
  destruct (truthy (session_get session "user")) eqn:Huser; cbn [negb] in Hdash.
  2:{ injection Hdash as <- <-. repeat split; try done. by left. }
  pose proof (result_valid_true svc (session_get session "token")) as Hvalid.
  destruct (result_valid _) as [[]|e]; cbn in Hdash; [| |done].
  - injection Hdash as <- <-. split; [|split; [|by left]].
    + intros template keyword value [= <- <- <-]. repeat split; try done.
      by apply Hvalid.
    + intros _ _ Hno. exfalso. apply Hno. by apply Hvalid.
  - injection Hdash as <- <-. split; [done|]. split; [done|by right].
Qed.

(** X23.  The index route redirects to the dashboard exactly when the
    session has a token the authentication service vouches for, and to
    the login page otherwise. *)
Theorem index_gate svc (session : gmap string Json) page :
  index svc session = Ok page →
  (page = redirect_to "dashboard" None
   ∧ truthy (session_get session "token") = true
   ∧ vouched svc (session_get session "token"))
  ∨ (page = redirect_to "login" None
     ∧ (truthy (session_get session "token") = false
        ∨ ¬ vouched svc (session_get session "token"))).
Proof.
  unfold index. intros Hindex.
  destruct (truthy (session_get session "token")) eqn:Htok.
  2:{ injection Hindex as <-. right. split; [done|by left]. }
  pose proof (result_valid_true svc (session_get session "token")) as Hvalid.
  destruct (result_valid _) as [[]|e]; cbn in Hindex; [| |done].
  - injection Hindex as <-. left. split; [done|]. split; [done|by apply Hvalid].
  - injection Hindex as <-. right. split; [done|]. right.
    intros Hv. by apply Hvalid in Hv.
Qed.

(** X24.  [/auth/success] stores a token in the session only when the
    authentication service vouches for it; otherwise the session is
    unchanged and the login page is asked for with an error. *)
Theorem auth_success_stores_vouched_token svc token (session : gmap string Json)
    page session' :
  auth_success svc token session = Ok (page, session') →
  (session' = session ∧ ∃ error, page = redirect_to "login" (Some error))
  ∨ (∃ t user,
       token = Some t ∧ t ≠ ""
       ∧ vouched svc (JAtom (JStr t))
       ∧ page = redirect_to "dashboard" None
       ∧ session' = <["user" := user]> (<["token" := JAtom (JStr t)]> session)).
Proof.
  unfold auth_success. intros Hauth.
  destruct token as [t|]; cbn [truthy_opt_str negb] in Hauth.
  2:{ injection Hauth as <- <-. left. split; [done|by eexists]. }
  destruct (truthy_str t) eqn:Ht; cbn [negb default from_option id] in Hauth.
  2:{ injection Hauth as <- <-. left. split; [done|by eexists]. }
  pose proof (result_valid_true svc (JAtom (JStr t))) as Hvalid.
  destruct (result_valid _) as [[]|e]; cbn in Hauth; [| |done].
  - destruct (json_getitem _ "user") as [user|e]; cbn in Hauth; [|done].
    injection Hauth as <- <-. right. exists t, user.
    repeat split; try done; [by apply truthy_str_true|by apply Hvalid].
  - injection Hauth as <- <-. left. split; [done|by eexists].
Qed.

End FrontendFacts.

(** ** The login page, and the services together *)

Section LoginPage.
Import Frontend.

Lemma error_message_nonempty e :
  error_message (Some e) ≠ "" ↔ e ∈ callback_reasons.
Proof.
  unfold error_message, error_messages, callback_reasons. cbn [assoc_get].
  split.
  - intros Hmsg.
    repeat (destruct (decide (_ = e)) as [<-|?]; [solve_elem_of_list|]).
    done.
  - intros Hin.
    repeat (apply elem_of_cons in Hin as [->|Hin]; [by vm_compute|]).
    by apply elem_of_nil in Hin.
Qed.

(** X25.  The login page has a message exactly for the five reasons of
    [/auth/callback]: the [session_expired] of the dashboard and the
    [no_token] of [/auth/success] are shown without a message. *)
Theorem login_page_messages svc token (session : gmap string Json) :
  (∀ e, error_message (Some e) ≠ "" ↔ e ∈ callback_reasons)
  ∧ (∀ e session', dashboard svc session = Ok (redirect_to "login" (Some e), session') →
       login (Some e) = login None)
  ∧ (∀ e session', auth_success svc token session
                   = Ok (redirect_to "login" (Some e), session') →
       e = "no_token" ∧ login (Some e) = login None ∨ e = "invalid_token").
Proof.
  split; [apply error_message_nonempty|]. split.
  - intros e session' Hdash. unfold dashboard in Hdash.
    destruct (negb _ || negb _); [by injection Hdash|].
    destruct (result_valid _) as [[]|]; cbn in Hdash; [done| |done].
    by injection Hdash as <- _.
  - intros e session' Hauth. unfold auth_success in Hauth.
    destruct (negb (truthy_opt_str token)).
    { injection Hauth as <- _. by left. }
    destruct (result_valid _) as [[]|]; cbn in Hauth; [| |done].
    + by destruct (json_getitem _ "user").
    + injection Hauth as <- _. by right.
Qed.

End LoginPage.

Section EndToEnd.
Import Frontend.
Context {lib : JwtLib}.
Variable JWT_SECRET : string.

(** X26.  With the frontend's requests reaching [/auth/verify], a session
    that holds a token [create_jwt_token] made of an identity whose
    [sub] is a string renders the dashboard before eight hours have
    passed; afterwards the dashboard empties the session and asks for
    the login page. *)
Theorem dashboard_with_issued_token `{!JwtLaws lib} issued now (user_info : PyDict)
    (sub : string) email name role token (session : gmap string Json) user :
  user_info !! "sub" = Some (JStr sub) → user_info !! "email" = Some email →
  user_info !! "name" = Some name → user_info !! "role" = Some role →
  AuthService.create_jwt_token JWT_SECRET issued user_info = Ok token → token ≠ "" →
  session !! "token" = Some (JAtom (JStr token)) →
  session !! "user" = Some user → truthy user = true →
  (now < issued + 28800 →
     dashboard (wired_services JWT_SECRET now) session
     = Ok (render_template "dashboard.html" "user" user, session))
  ∧ (issued + 28800 < now →
     dashboard (wired_services JWT_SECRET now) session
     = Ok (redirect_to "login" (Some "session_expired"), ∅)).
Proof.
  intros Hs He Hn Hr Hc Hne Htok Huser Htruthy.
  unfold AuthService.create_jwt_token in Hc.
  rewrite (create_jwt_payload_ok issued user_info (JStr sub) email name role) in Hc
    by done.
  injection Hc as <-.
  assert (now < issued + 28800 → jwt_decode (jwt_encode _ JWT_SECRET) JWT_SECRET now = _)
    as Hfresh by apply (jwt_decode_issued JWT_SECRET issued now sub email name role
                          (dict_get_default user_info "picture" (JStr ""))).
  set (payload := <["sub":=JStr sub]> _) in *.
  assert (payload !! "exp" = Some (JNum (issued + 28800))) as Hexp
    by (unfold payload; by simplify_map_eq).
  assert (no_other_registered_claims payload) as Hreg
    by (unfold payload; by repeat split; simplify_map_eq).
  set (token := jwt_encode payload JWT_SECRET) in *.
  unfold dashboard.
  rewrite (session_get_Some session "token" _ Htok),
    (session_get_Some session "user" _ Huser), Htruthy.
  cbn [truthy truthy_atom]. rewrite (proj2 (truthy_str_true token) Hne).
  cbn [negb orb].
  unfold verify_with_auth_service, call_auth_service.
  cbn [truthy None_ truthy_atom].
  rewrite bool_decide_false by done. rewrite bool_decide_true by done.
  cbn [wired_services auth_post]. rewrite bool_decide_true by done.
  change (posted_body (JDict [("token", JAtom (JStr token))]))
    with (Some ({[ "token" := token ]} : gmap string string)).
  split; intros Ht.
  - rewrite (verify_token_valid JWT_SECRET now {[ "token" := token ]} token payload
               (JStr sub) email name role);
      [done|apply lookup_singleton_eq|done| |unfold payload; by simplify_map_eq..].
    apply verify_jwt_token_decoded. exact (Hfresh Ht).
  - rewrite (verify_token_invalid JWT_SECRET now {[ "token" := token ]} token None);
      [done|apply lookup_singleton_eq|done| |done].
    unfold AuthService.verify_jwt_token, token.
    by rewrite (jwt_decode_encode_expired payload JWT_SECRET now _ Hexp Hreg Ht).
Qed.

End EndToEnd.

(** ** Instances on the sample data *)

(** Issuing ["s2"] beside the pending ["s1"]. *)
Lemma step_frame_witness :
  step (store_oauth_state 0 0 "s1" ∅) (Issue 100 100 "s2") !! "s1"
  = Some {| timestamp := 0; used := false |}.
Proof.
  refine (proj1 (step_frame (store_oauth_state 0 0 "s1" ∅) (Issue 100 100 "s2") "s1"
                   {| timestamp := 0; used := false |} _ _) _).
  - discriminate.
  - vm_compute. reflexivity.
  - simpl. lia.
Defined.

(** ["s1"] outlives three operations on other states. *)
Lemma pending_state_survives_witness :
  (verify_oauth_state 500 "s1"
     (run (store_oauth_state 0 0 "s1" ∅)
          [Issue 100 100 "s2"; Consume 200 "s2"; Consume 300 "s3"])).1 = true.
Proof.
  apply (pending_state_survives ∅ 0 0 "s1"
           [Issue 100 100 "s2"; Consume 200 "s2"; Consume 300 "s3"] 500).
  - repeat constructor; simpl; (discriminate || lia).
  - lia.
Defined.

(** A login at second 0 and its callback at second 30, without a session. *)
Lemma login_then_callback_witness :
  cb_response (AuthService.oauth_callback (lib := RefJwt.lib) secret roles frontend
                 idp_accepting 30 30
                 {| arg_state := Some "s1"; arg_code := Some "code" |} ∅
                 (AuthService.initiate_login 0 0 "s1" ∅ ∅).1)
  ≠ AuthService.login_error frontend "state_mismatch".
Proof.
  refine (proj1 (proj2 (login_then_callback (lib := RefJwt.lib) secret roles frontend
            idp_accepting 0 0 30 30 "s1" (Some "code") ∅ ∅ ∅ _ _))).
  - discriminate.
  - lia.
Defined.

(** The callback that ends in the token of [alice_idinfo]. *)
Lemma oauth_callback_token_only_after_checks_witness :
  state_accepted 30 (Some "s1") ((∅ : gmap string string) !! "oauth_state")
    (store_oauth_state 0 0 "s1" ∅).
Proof.
  refine (proj1 (oauth_callback_token_only_after_checks (lib := RefJwt.lib)
            secret roles frontend idp_accepting 30 30
            {| arg_state := Some "s1"; arg_code := Some "code" |} ∅
            (store_oauth_state 0 0 "s1" ∅)
            (CallbackCases.issued_token (lib := RefJwt.lib) secret roles 30
               alice_idinfo (JStr "1001")) _)).
  vm_compute. reflexivity.
Defined.

Lemma provider_accepts_sample :
  provider_accepts idp_accepting "code" (JStr "assertion") alice_idinfo.
Proof. eexists. repeat split. Qed.

Lemma state_accepted_sample :
  state_accepted 30 (Some "s1") ((∅ : gmap string string) !! "oauth_state")
    (store_oauth_state 0 0 "s1" ∅).
Proof. exists "s1". repeat split; [done|]. left. by vm_compute. Qed.

(** The callback for [alice_idinfo], who has no entry in [roles]. *)
Lemma oauth_callback_issues_role_witness :
  ∃ jwt_token,
    cb_response (AuthService.oauth_callback (lib := RefJwt.lib) secret roles frontend
                   idp_accepting 30 30
                   {| arg_state := Some "s1"; arg_code := Some "code" |} ∅
                   (store_oauth_state 0 0 "s1" ∅))
    = AuthService.auth_success frontend jwt_token
    ∧ ∀ t, t < 30 + 28800 →
        ∃ claims,
          AuthService.verify_jwt_token (lib := RefJwt.lib) secret t jwt_token
          = Ok (Some claims)
          ∧ claims !! "sub" = Some (JStr "1001")
          ∧ claims !! "email" = Some (default JNull (alice_idinfo !! "email"))
          ∧ claims !! "role"
            = Some (match alice_idinfo !! "email" with
                    | Some (JStr email) => default (JStr "user") (roles !! email)
                    | _ => JStr "user"
                    end).
Proof.
  apply (oauth_callback_issues_role (lib := RefJwt.lib) secret roles frontend
           idp_accepting 30 30 {| arg_state := Some "s1"; arg_code := Some "code" |}
           ∅ (store_oauth_state 0 0 "s1" ∅) "code" (JStr "assertion")
           alice_idinfo "1001").
  - exact state_accepted_sample.
  - reflexivity.
  - discriminate.
  - exact provider_accepts_sample.
  - reflexivity.
Defined.

Lemma admin_token_nonempty : admin_token ≠ "".
Proof. vm_compute. discriminate. Qed.

Lemma admin_token_issued :
  AuthService.create_jwt_token (lib := RefJwt.lib) secret 1000 admin_info
  = Ok admin_token.
Proof. vm_compute. reflexivity. Qed.

(** The admin's token at second 2000. *)
Lemma verify_token_issued_witness :
  AuthEndpoints.verify_token (lib := RefJwt.lib) secret 2000
    (Some {[ "token" := admin_token ]})
  = {| reply_status := 200;
       reply_body :=
         JDict [("valid", JAtom (JBool true));
                ("user",
                 JDict [("sub", JAtom (JStr "1002"));
                        ("email", JAtom (JStr "admin@example.com"));
                        ("name", JAtom (JStr "Root")); ("role", JAtom (JStr "admin"));
                        ("picture",
                         JAtom (default (JStr "") (admin_info !! "picture")))])] |}.
Proof.
  refine (proj1 (verify_token_issued (lib := RefJwt.lib) secret 1000 2000 admin_info
            "1002" (JStr "admin@example.com") (JStr "Root") (JStr "admin")
            admin_token eq_refl eq_refl eq_refl eq_refl admin_token_issued
            admin_token_nonempty) _).
  lia.
Defined.

(** The admin's token on an admin route at second 2000. *)
Lemma issued_token_at_resource_service_witness :
  ∃ claims,
    claims !! "sub" = Some (JStr "1002")
    ∧ claims !! "email" = Some (JStr "admin@example.com")
    ∧ claims !! "role" = Some (JStr "admin")
    ∧ ResourceService.protected (lib := RefJwt.lib) secret admin view_ok 2000
        (bearer admin_token)
      = if bool_decide (admin = admin ∧ JStr "admin" ≠ JStr "admin")
        then Ok (json_error 403 "Admin access required")
        else view_ok (set_user claims (bearer admin_token)).
Proof.
  refine (proj1 (issued_token_at_resource_service (lib := RefJwt.lib) secret view_ok
            1000 2000 admin_info "1002" (JStr "admin@example.com")
            (JStr "Root") (JStr "admin") admin_token admin
            eq_refl eq_refl eq_refl eq_refl admin_token_issued _) _).
  - vm_compute. reflexivity.
  - lia.
Defined.

(** The listing for [alice]. *)
Lemma get_all_accessible_resources_by_role_witness :
  ∃ items message,
    ResourceViews.get_all_accessible_resources "2025-02-01T00:00:00"
      (request_of alice)
    = Ok {| reply_status := 200;
            reply_body := ResourceViews.format_api_response "2025-02-01T00:00:00"
                            (JList items) message |}
    ∧ length items
      = (if bool_decide (alice !! "role" = Some (JStr "admin")) then 6 else 3)%nat
    ∧ ∀ item, item ∈ items →
        ∃ fields,
          item = JDict fields
          ∧ assoc_get "accessible_by" fields = Some (JAtom (JStr "alice@example.com"))
          ∧ (assoc_get "sensitive" fields ≠ None →
               alice !! "role" = Some (JStr "admin")
               ∧ assoc_get "access_level" fields = Some (JAtom (JStr "admin")))
          ∧ (assoc_get "sensitive" fields = None →
               assoc_get "access_level" fields = Some (JAtom (JStr "user"))).
Proof.
  apply (get_all_accessible_resources_by_role "2025-02-01T00:00:00"
           (request_of alice) alice (JStr "alice@example.com")); reflexivity.
Defined.

(** Claims with a [sub] only. *)
Lemma views_need_email_witness :
  ResourceViews.get_user_resources "2025-02-01T00:00:00"
    (request_of {[ "sub" := JStr "1001" ]})
  = Raise (KeyError "email").
Proof.
  refine (proj1 (views_need_email "2025-02-01T00:00:00" "2025-02-01T00:00:00"
            (request_of {[ "sub" := JStr "1001" ]}) {[ "sub" := JStr "1001" ]}
            eq_refl _)).
  reflexivity.
Defined.

(** The profile of the admin. *)
Lemma profile_agrees_with_listing_witness :
  ∃ user_info stats permissions items message,
    ResourceViews.get_user_profile "2025-02-01T00:00:00" "2025-02-01T00:00:01"
      (request_of admin_info)
    = Ok {| reply_status := 200;
            reply_body :=
              ResourceViews.format_api_response "2025-02-01T00:00:01"
                (JDict [("user_info", JDict user_info); ("stats", JDict stats);
                        ("permissions", JDict permissions)])
                "Profile retrieved successfully" |}
    ∧ ResourceViews.get_all_accessible_resources "2025-02-01T00:00:01"
        (request_of admin_info)
      = Ok {| reply_status := 200;
              reply_body := ResourceViews.format_api_response "2025-02-01T00:00:01"
                              (JList items) message |}
    ∧ assoc_get "total_accessible_resources" stats
      = Some (JAtom (JNum (Z.of_nat (length items))))
    ∧ assoc_get "can_access_admin_resources" permissions
      = Some (JAtom (JBool (bool_decide (admin_info !! "role" = Some (JStr "admin")))))
    ∧ assoc_get "can_manage_users" permissions
      = Some (JAtom (JBool (bool_decide (admin_info !! "role" = Some (JStr "admin")))))
    ∧ assoc_get "role" user_info
      = Some (JAtom (default (JStr "user") (admin_info !! "role"))).
Proof.
  apply (profile_agrees_with_listing "2025-02-01T00:00:00" "2025-02-01T00:00:01"
           (request_of admin_info) admin_info (JStr "1002")
           (JStr "admin@example.com") (JStr "Root")); reflexivity.
Defined.

(** A logged-in session with both backends up. *)
Lemma proxies_status_witness :
  Frontend.get_admin_resources backends_up (browser_session "tok")
  = jsonify api_body 503
  ∧ Frontend.get_user_resources backends_up (browser_session "tok")
    = jsonify api_body 200.
Proof.
  destruct (proxies_status backends_up (browser_session "tok") (JAtom (JStr "tok"))
              eq_refl eq_refl) as (Huser & _ & Hadmin & _).
  split; [apply Hadmin|apply Huser]; reflexivity.
Defined.

(** An empty session. *)
Lemma proxies_need_token_witness :
  Frontend.get_admin_users backends_up ∅ = Frontend.not_authenticated.
Proof.
  assert (truthy (Frontend.session_get (∅ : gmap string Json) "token") = false)
    as Hno by (vm_compute; reflexivity).
  destruct (proxies_need_token backends_up ∅ Hno) as (_ & _ & _ & _ & H & _).
  exact H.
Defined.

(** A logged-in session with both backends up. *)
Lemma dashboard_gate_witness :
  Frontend.dashboard backends_up (browser_session "tok")
    = Ok (render_template "dashboard.html" "user"
            (JDict [("email", JAtom (JStr "alice@example.com"))]),
          browser_session "tok")
  ∧ vouched backends_up (Frontend.session_get (browser_session "tok") "token").
Proof.
  assert (Frontend.dashboard backends_up (browser_session "tok")
          = Ok (render_template "dashboard.html" "user"
                  (JDict [("email", JAtom (JStr "alice@example.com"))]),
                browser_session "tok")) as Hdash by reflexivity.
  split; [exact Hdash|].
  destruct (dashboard_gate backends_up (browser_session "tok") _ _ Hdash)
    as (Hrender & _).
  exact (proj1 (Hrender _ _ _ eq_refl)).
Defined.

(** A token the authentication service vouches for. *)
Lemma auth_success_stores_vouched_token_witness :
  Frontend.auth_success backends_up (Some "tok") ∅
    = Ok (redirect_to "dashboard" None, browser_session "tok")
  ∧ ((browser_session "tok" = ∅ ∧ ∃ error, redirect_to "dashboard" None
                                            = redirect_to "login" (Some error))
     ∨ ∃ t user,
         Some "tok" = Some t ∧ t ≠ ""
         ∧ vouched backends_up (JAtom (JStr t))
         ∧ redirect_to "dashboard" None = redirect_to "dashboard" None
         ∧ browser_session "tok"
           = <["user" := user]> (<["token" := JAtom (JStr t)]> ∅)).
Proof.
  assert (Frontend.auth_success backends_up (Some "tok") ∅
          = Ok (redirect_to "dashboard" None, browser_session "tok")) as Hauth
    by (vm_compute; reflexivity).
  split; [exact Hauth|].
  exact (auth_success_stores_vouched_token backends_up (Some "tok") ∅ _ _ Hauth).
Defined.

(** The admin's token in the session, at second 2000. *)
Lemma dashboard_with_issued_token_witness :
  Frontend.dashboard (wired_services (lib := RefJwt.lib) secret 2000)
    (browser_session admin_token)
  = Ok (render_template "dashboard.html" "user"
          (JDict [("email", JAtom (JStr "alice@example.com"))]),
        browser_session admin_token).
Proof.
  refine (proj1 (dashboard_with_issued_token (lib := RefJwt.lib) secret 1000 2000
            admin_info "1002" (JStr "admin@example.com") (JStr "Root")
            (JStr "admin") admin_token (browser_session admin_token)
            (JDict [("email", JAtom (JStr "alice@example.com"))])
            eq_refl eq_refl eq_refl eq_refl admin_token_issued admin_token_nonempty
            _ _ eq_refl) _).
  - vm_compute. reflexivity.
  - vm_compute. reflexivity.
  - lia.
Defined.

(** A logged-in session with both backends up. *)
Lemma index_gate_witness :
  Frontend.index backends_up (browser_session "tok") = Ok (redirect_to "dashboard" None)
  ∧ vouched backends_up (Frontend.session_get (browser_session "tok") "token").
Proof.
  assert (Frontend.index backends_up (browser_session "tok")
          = Ok (redirect_to "dashboard" None)) as Hindex by reflexivity.
  split; [exact Hindex|].
  destruct (index_gate backends_up (browser_session "tok") _ Hindex)
    as [(_ & _ & Hv)|([=] & _)].
  exact Hv.
Defined.
